(** * fako1024/profiler: the HTTP handlers of the profiling web interface

    A shallow embedding of the handlers [Cmdline], [Profile], [Trace] and
    [Symbol] of package [profiler], together with the parts of Go's standard
    library they call ([strconv], [bufio], [fmt], [net/http], [runtime/pprof],
    [runtime/trace]), and the properties of the handlers proved over it.

    Go strings are byte sequences: they are [string]s here, one [ascii] per
    byte.  Machine integers are [Z] with their wrap-around written out. *)

From Stdlib Require Import ZArith List Bool Ascii String Lia.
From Stdlib Require Import PrimFloat SpecFloat FloatOps.
Import ListNotations.

Local Open Scope string_scope.
Local Open Scope Z_scope.

(* ================================================================== *)
(** * Bytes and machine integers *)

Definition byte (c : ascii) : Z := Z.of_N (N_of_ascii c).

Definition two64 : Z := 2 ^ 64.
Definition maxUint64 : Z := two64 - 1.
Definition maxInt64 : Z := 2 ^ 63 - 1.
Definition minInt64 : Z := - 2 ^ 63.

(** Conversion to [uint64] and to [int64]: the value modulo 2^64. *)
Definition uint64 (z : Z) : Z := z mod two64.
Definition int64 (z : Z) : Z :=
  let u := z mod two64 in if u <? 2 ^ 63 then u else u - two64.

Definition slen (s : string) : Z := Z.of_nat (String.length s).

(** [s[n:]] for [0 <= n <= len(s)]. *)
Fixpoint drop (n : nat) (s : string) : string :=
  match n, s with
  | O, _ => s
  | S n', String _ s' => drop n' s'
  | S _, EmptyString => EmptyString
  end.

(** [s[:n]] for [0 <= n <= len(s)]. *)
Fixpoint take (n : nat) (s : string) : string :=
  match n, s with
  | O, _ => EmptyString
  | S n', String c s' => String c (take n' s')
  | S _, EmptyString => EmptyString
  end.

(** [s[i]], as a byte; 0 out of range (never asked for by the code below). *)
Definition at_ (s : string) (i : nat) : Z :=
  match String.get i s with Some c => byte c | None => 0 end.

(** A string without the byte [c]. *)
Fixpoint lacks (c : ascii) (s : string) : bool :=
  match s with
  | EmptyString => true
  | String ch s' => negb (Ascii.eqb ch c) && lacks c s'
  end.

Fixpoint replicate (n : nat) (c : ascii) : string :=
  match n with
  | O => EmptyString
  | S n' => String c (replicate n' c)
  end.

(* ================================================================== *)
(** * Package strconv: ParseUint and ParseInt *)

(** The functions are those of Go 1.13 and later: with base 0, the prefixes
    [0b], [0o] and [0x] and underscores between digits are accepted. *)

Module strconv.

(** The [Err] field of a [*strconv.NumError]. *)
Inductive NumError := ErrSyntax | ErrRange | ErrBase | ErrBitSize.

Definition IntSize : Z := 64.

(** [lower(c)] is [c | ('x' - 'X')]. *)
Definition lower (c : Z) : Z := Z.lor c 32.

(** The digit loop of [ParseUint].  [inl] is an early [return] from inside the
    loop, [inr (n, underscores)] is the state when the loop ends. *)
Fixpoint ParseUint_loop (base : Z) (base0 : bool) (cutoff maxVal : Z)
    (s : string) (n : Z) (underscores : bool)
    : (Z * NumError) + (Z * bool) :=
  match s with
  | EmptyString => inr (n, underscores)
  | String ch s' =>
    let c := byte ch in
    if (c =? byte "_") && base0 then
      ParseUint_loop base base0 cutoff maxVal s' n true
    else
      let d :=
        if (byte "0" <=? c) && (c <=? byte "9") then Some (c - byte "0")
        else if (byte "a" <=? lower c) && (lower c <=? byte "z")
             then Some (lower c - byte "a" + 10)
             else None in
      match d with
      | None => inl (0, ErrSyntax)
      | Some d =>
        if d >=? base then inl (0, ErrSyntax)
        else if n >=? cutoff then inl (maxVal, ErrRange)
        else
          let n' := uint64 (n * base) in
          let n1 := uint64 (n' + d) in
          if (n1 <? n') || (n1 >? maxVal) then inl (maxVal, ErrRange)
          else ParseUint_loop base base0 cutoff maxVal s' n1 underscores
      end
  end.

(** [underscoreOK]: underscores only between digits or after the base prefix.
    [saw] is the last character class seen, as in the source. *)
Inductive Saw := SawStart | SawDigit | SawUnderscore | SawOther.

Fixpoint underscoreOK_loop (hex : bool) (s : string) (saw : Saw) : bool :=
  match s with
  | EmptyString => match saw with SawUnderscore => false | _ => true end
  | String ch s' =>
    let c := byte ch in
    if ((byte "0" <=? c) && (c <=? byte "9"))
       || (hex && (byte "a" <=? lower c) && (lower c <=? byte "f"))
    then underscoreOK_loop hex s' SawDigit
    else if c =? byte "_" then
      match saw with
      | SawDigit => underscoreOK_loop hex s' SawUnderscore
      | _ => false
      end
    else
      match saw with
      | SawUnderscore => false
      | _ => underscoreOK_loop hex s' SawOther
      end
  end.

Definition underscoreOK (s : string) : bool :=
  let s :=
    if (1 <=? slen s) && ((at_ s 0 =? byte "-") || (at_ s 0 =? byte "+"))
    then drop 1 s else s in
  if (2 <=? slen s) && (at_ s 0 =? byte "0")
     && ((lower (at_ s 1) =? byte "b") || (lower (at_ s 1) =? byte "o")
         || (lower (at_ s 1) =? byte "x"))
  then underscoreOK_loop (lower (at_ s 1) =? byte "x") (drop 2 s) SawDigit
  else underscoreOK_loop false s SawStart.

(** [ParseUint(s, base, bitSize)]: the value and the error ([None] is nil). *)
Definition ParseUint (s : string) (base bitSize : Z) : Z * option NumError :=
  if String.eqb s "" then (0, Some ErrSyntax) else
  let base0 := base =? 0 in
  let s0 := s in
  let picked :=
    if (2 <=? base) && (base <=? 36) then Some (base, s)
    else if base =? 0 then
      if at_ s 0 =? byte "0" then
        if (3 <=? slen s) && (lower (at_ s 1) =? byte "b") then Some (2, drop 2 s)
        else if (3 <=? slen s) && (lower (at_ s 1) =? byte "o") then Some (8, drop 2 s)
        else if (3 <=? slen s) && (lower (at_ s 1) =? byte "x") then Some (16, drop 2 s)
        else Some (8, drop 1 s)
      else Some (10, s)
    else None in
  match picked with
  | None => (0, Some ErrBase)
  | Some (base, s) =>
    if (bitSize <? 0) || (64 <? bitSize) then (0, Some ErrBitSize) else
    let bitSize := if bitSize =? 0 then IntSize else bitSize in
    let cutoff := maxUint64 / base + 1 in
    let maxVal := uint64 (uint64 (Z.shiftl 1 bitSize) - 1) in
    match ParseUint_loop base base0 cutoff maxVal s 0 false with
    | inl (v, e) => (v, Some e)
    | inr (n, underscores) =>
      if underscores && negb (underscoreOK s0) then (0, Some ErrSyntax)
      else (n, None)
    end
  end.

(** [ParseInt(s, base, bitSize)]. *)
Definition ParseInt (s : string) (base bitSize : Z) : Z * option NumError :=
  if String.eqb s "" then (0, Some ErrSyntax) else
  let neg := at_ s 0 =? byte "-" in
  let s' := if (at_ s 0 =? byte "+") || neg then drop 1 s else s in
  let '(un, err) := ParseUint s' base bitSize in
  match err with
  | Some ErrSyntax => (0, err)
  | Some ErrBase => (0, err)
  | Some ErrBitSize => (0, err)
  | _ =>
    let bitSize := if bitSize =? 0 then IntSize else bitSize in
    let cutoff := uint64 (Z.shiftl 1 (bitSize - 1)) in
    if negb neg && (un >=? cutoff) then (int64 (cutoff - 1), Some ErrRange)
    else if neg && (un >? cutoff) then (int64 (- int64 cutoff), Some ErrRange)
    else
      let n := int64 un in
      ((if neg then int64 (- n) else n), None)
  end.

(** [ParseBool(str)]. *)
Definition ParseBool (str : string) : bool * option NumError :=
  if existsb (String.eqb str) ["1"; "t"; "T"; "true"; "TRUE"; "True"]
  then (true, None)
  else if existsb (String.eqb str) ["0"; "f"; "F"; "false"; "FALSE"; "False"]
  then (false, None)
  else (false, Some ErrSyntax).

End strconv.

(* ================================================================== *)
(** * Package fmt: the verbs and the format strings the handlers use *)

Module fmt.

Definition hexdigit (d : Z) : ascii :=
  match String.get (Z.to_nat d) "0123456789abcdef" with
  | Some c => c
  | None => "?"%char
  end.

(** The digit loop of [fmtInteger] in base 16: [for u >= 16 { ...; u >>= 4 }].
    A [uint64] has at most 16 hexadecimal digits, which bounds the loop. *)
Fixpoint fmt_hex_loop (fuel : nat) (u : Z) (acc : string) : string :=
  match fuel with
  | O => acc
  | S fuel' =>
    if u >=? 16
    then fmt_hex_loop fuel' (Z.shiftr u 4) (String (hexdigit (Z.land u 15)) acc)
    else String (hexdigit u) acc
  end.

(** [Sprintf("%#x", u)] for a [uint64]. *)
Definition sharp_x (u : Z) : string := "0x" ++ fmt_hex_loop 16 (uint64 u) "".

(** [parsenum(s, start, end)] on the suffix [s[start:end]]: the suffix left
    after the number; a number above one million abandons the format. *)
Fixpoint parsenum (s : string) (num : Z) : string :=
  match s with
  | EmptyString => s
  | String ch s' =>
    if (byte "0" <=? byte ch) && (byte ch <=? byte "9") then
      if (1000000 <? num) then EmptyString
      else parsenum s' (num * 10 + (byte ch - byte "0"))
    else s
  end.

(** The flag loop of [doPrintf] with no operand: flags are skipped. *)
Fixpoint skip_flags (s : string) : string :=
  match s with
  | String ch s' =>
    if existsb (Ascii.eqb ch) ["#"; "0"; "+"; "-"; " "]%char
    then skip_flags s' else s
  | EmptyString => s
  end.

Definition starts_with (c : ascii) (s : string) : bool :=
  match s with String ch _ => Ascii.eqb ch c | EmptyString => false end.

(** What [doPrintf] does after a [%] when there is no operand: width,
    precision and verb.  The result is the text written and the rest of the
    format; [None] where the format leaves the fragment modelled here (an
    argument index [[n]] or a verb that is not ASCII). *)
Definition verb_no_operand (s : string) : option (string * string) :=
  let s := skip_flags s in
  if starts_with "[" s then None else
  let '(out1, s) :=
    if starts_with "*" s then ("%!(BADWIDTH)", drop 1 s)
    else ("", parsenum s 0) in
  let r :=
    if starts_with "." s then
      let s := drop 1 s in
      if starts_with "[" s then None
      else if starts_with "*" s then Some ("%!(BADPREC)", drop 1 s)
      else Some ("", parsenum s 0)
    else Some ("", s) in
  match r with
  | None => None
  | Some (out2, s) =>
    if starts_with "[" s then None else
    match s with
    | EmptyString => Some (out1 ++ out2 ++ "%!(NOVERB)", EmptyString)
    | String verb s' =>
      if 128 <=? byte verb then None
      else if Ascii.eqb verb "%" then Some (out1 ++ out2 ++ "%", s')
      else Some (out1 ++ out2 ++ "%!" ++ String verb "(MISSING)", s')
    end
  end.

(** [Sprintf(format)] with no operand: the main loop of [doPrintf].  Every
    round consumes at least one byte of the format, which bounds the loop by
    the length of the format. *)
Fixpoint doPrintf0 (fuel : nat) (format : string) : option string :=
  match fuel with
  | O => match format with EmptyString => Some "" | _ => None end
  | S fuel' =>
    match format with
    | EmptyString => Some ""
    | String ch rest =>
      if Ascii.eqb ch "%" then
        match verb_no_operand rest with
        | None => None
        | Some (out, rest') =>
          match doPrintf0 fuel' rest' with
          | None => None
          | Some tl => Some (out ++ tl)
          end
        end
      else
        match doPrintf0 fuel' rest with
        | None => None
        | Some tl => Some (String ch tl)
        end
    end
  end.

Definition Sprintf0 (format : string) : option string :=
  doPrintf0 (String.length format) format.

End fmt.

(* ================================================================== *)
(** * Go errors *)

(** The [error] values the handlers can meet: the sentinels [io.EOF] and
    [bufio.ErrBufferFull], which the code compares by identity, and any other
    error, known by its message. *)
Inductive error :=
| io_EOF
| bufio_ErrBufferFull
| errorString (msg : string).

(** [err.Error()], which is what the verbs [%s] and [%v] print. *)
Definition Error (e : error) : string :=
  match e with
  | io_EOF => "EOF"
  | bufio_ErrBufferFull => "bufio: buffer full"
  | errorString msg => msg
  end.

Definition is_EOF (e : error) : bool :=
  match e with io_EOF => true | _ => false end.

(** The line feed and the NUL byte. *)
Definition LF : string := String "010"%char EmptyString.
Definition NUL : string := String "000"%char EmptyString.

(* ================================================================== *)
(** * Package net/http: the response writer and the request *)

Module http.

Definition StatusOK : Z := 200.
Definition StatusInternalServerError : Z := 500.

Definition Header := list (string * string).

Definition Header_Set (h : Header) (k v : string) : Header :=
  (k, v) :: filter (fun kv => negb (String.eqb (fst kv) k)) h.

Definition Header_Get (h : Header) (k : string) : string :=
  match find (fun kv => String.eqb (fst kv) k) h with
  | Some kv => snd kv
  | None => ""
  end.

(** An [http.ResponseWriter], as the server's implementation behaves: the
    header map can be changed at any time but is sent, with the status, by
    the first [WriteHeader]; later [WriteHeader] calls are dropped; a [Write]
    before any [WriteHeader] sends status 200 first. *)
Record ResponseWriter := mkResponseWriter {
  header : Header;            (* w.Header(), the live map *)
  wroteHeader : bool;
  status : Z;                 (* the status sent, once wroteHeader *)
  sentHeader : Header;        (* the header map as it was sent *)
  written : list string;      (* the arguments of the Write calls, in order *)
  closeNotifier : bool        (* does w implement http.CloseNotifier *)
}.

Definition newResponseWriter (cn : bool) : ResponseWriter :=
  mkResponseWriter [] false 0 [] [] cn.

Definition SetHeader (w : ResponseWriter) (k v : string) : ResponseWriter :=
  mkResponseWriter (Header_Set (header w) k v) (wroteHeader w) (status w)
    (sentHeader w) (written w) (closeNotifier w).

Definition WriteHeader (w : ResponseWriter) (code : Z) : ResponseWriter :=
  if wroteHeader w then w
  else mkResponseWriter (header w) true code (header w) (written w)
         (closeNotifier w).

Definition Write (w : ResponseWriter) (data : string) : ResponseWriter :=
  let w := if wroteHeader w then w else WriteHeader w StatusOK in
  mkResponseWriter (header w) (wroteHeader w) (status w) (sentHeader w)
    (written w ++ [data])%list (closeNotifier w).

(** The response body: everything written, in order. *)
Definition body (w : ResponseWriter) : string := String.concat "" (written w).

(** What an [io.Reader] delivers: its bytes, then the error that ends it
    ([io.EOF] for a complete body and for a [strings.Reader]).  The [Read]
    that delivers the last bytes may report that error too, as the body of a
    request with a Content-Length does, or leave it to the next [Read], as a
    [strings.Reader] does: [ending_with_data] tells which. *)
Record Source := mkSource {
  data : string;
  ending : error;
  ending_with_data : bool
}.

Record Request := mkRequest {
  Method : string;
  RawQuery : string;          (* r.URL.RawQuery *)
  Host : string;
  Body : Source;
  Form : list (string * string)
}.

(** [r.FormValue(key)]: the first value of [key], or the empty string. *)
Definition FormValue (r : Request) (key : string) : string :=
  match find (fun kv => String.eqb (fst kv) key) (Form r) with
  | Some kv => snd kv
  | None => ""
  end.

End http.

(* ================================================================== *)
(** * Package bufio: Reader.ReadSlice *)

Module bufio.

Definition defaultBufSize : nat := 4096.

(** A [*bufio.Reader] over a source: the bytes not yet handed out, the error
    that ends the source, and whether that error comes with the last bytes. *)
Record Reader := mkReader {
  pending : string;
  src_err : error;
  err_with_data : bool
}.

Definition NewReader (src : http.Source) : Reader :=
  mkReader (http.data src) (http.ending src) (http.ending_with_data src).

(** [bytes.IndexByte]. *)
Fixpoint IndexByte (s : string) (c : ascii) : option nat :=
  match s with
  | EmptyString => None
  | String ch s' =>
    if Ascii.eqb ch c then Some O
    else match IndexByte s' c with Some i => Some (S i) | None => None end
  end.

(** [b.ReadSlice(delim)] fills its buffer of [defaultBufSize] bytes and
    looks, in this order, for
    - a [delim] in the buffer: the bytes up to and including it;
    - a pending error of the source: all that is left, with that error.  The
      error is pending once the source has delivered all its bytes: when
      fewer bytes are left than the buffer holds, and also when the bytes
      left fill the buffer exactly and the source reports its error with
      them;
    - a full buffer: the whole buffer and [ErrBufferFull]. *)
Definition ReadSlice (b : Reader) (delim : ascii)
    : string * option error * Reader :=
  let window := take defaultBufSize (pending b) in
  match IndexByte window delim with
  | Some i =>
    (take (S i) (pending b), None,
     mkReader (drop (S i) (pending b)) (src_err b) (err_with_data b))
  | None =>
    if (String.length (pending b) <? defaultBufSize)%nat
       || (String.length (pending b) =? defaultBufSize)%nat && err_with_data b
    then (pending b, Some (src_err b),
          mkReader "" (src_err b) (err_with_data b))
    else (window, Some bufio_ErrBufferFull,
          mkReader (drop defaultBufSize (pending b)) (src_err b)
            (err_with_data b))
  end.

End bufio.

(* ================================================================== *)
(** * Package runtime: the function table *)

Module runtime.

(** A function of the running program: the addresses [entry <= pc < end_]
    belong to it.  Addresses are [uintptr]s, 64 bits wide. *)
Record Func := mkFunc { entry : Z; end_ : Z; Name : string }.

Definition uintptr (z : Z) : Z := z mod two64.

(** [runtime.FuncForPC(pc)]: the function that owns [pc], or nil. *)
Definition FuncForPC (table : list Func) (pc : Z) : option Func :=
  find (fun f => (uintptr (entry f) <=? pc) && (pc <? uintptr (end_ f))) table.

End runtime.

(* ================================================================== *)
(** * Packages runtime/pprof and runtime/trace: the process-wide samplers *)

Module sampler.

(** [cpu.profiling] of runtime/pprof and the [enabled] flag of
    runtime/trace. *)
Record Sampler := mkSampler { cpu_profiling : bool; tracing : bool }.

Definition idle : Sampler := mkSampler false false.

Definition cpu_in_use : error := errorString "cpu profiling already in use".
Definition trace_in_use : error := errorString "tracing is already enabled".

(** [pprof.StartCPUProfile]: fails when a CPU profile is being taken. *)
Definition StartCPUProfile (s : Sampler) : option error * Sampler :=
  if cpu_profiling s then (Some cpu_in_use, s)
  else (None, mkSampler true (tracing s)).

(** [pprof.StopCPUProfile]: does nothing when no CPU profile is being taken. *)
Definition StopCPUProfile (s : Sampler) : Sampler :=
  if cpu_profiling s then mkSampler false (tracing s) else s.

(** [trace.Start]: fails when tracing is enabled already. *)
Definition TraceStart (s : Sampler) : option error * Sampler :=
  if tracing s then (Some trace_in_use, s)
  else (None, mkSampler (cpu_profiling s) true).

(** [trace.Stop]. *)
Definition TraceStop (s : Sampler) : Sampler :=
  if tracing s then mkSampler (cpu_profiling s) false else s.

End sampler.

(* ================================================================== *)
(** * Package time and float64 *)

Definition Second : Z := 1000000000.

(** [int64(f)] for a [float64], truncating towards zero; for NaN and for
    values outside [int64] the result is the one of amd64, [minInt64]. *)
Definition float64_to_int64 (f : float) : Z :=
  match Prim2SF f with
  | S754_finite sign m e =>
    let mag := if 0 <=? e then Z.shiftl (Zpos m) e else Z.shiftr (Zpos m) (- e) in
    let v := if sign then - mag else mag in
    if (minInt64 <=? v) && (v <=? maxInt64) then v else minInt64
  | S754_zero _ => 0
  | _ => minInt64
  end.

(* ================================================================== *)
(** * Package profiler: the handlers *)

Import http.

(** ** Cmdline *)

(** [Cmdline]: the joined arguments are handed to [fmt.Fprintf] as its format
    string, with no operand.  [None] only where the format leaves the
    fragment of [fmt] modelled above. *)
Definition Cmdline (os_Args : list string) (w : ResponseWriter)
    : option ResponseWriter :=
  let w := SetHeader w "Content-Type" "text/plain; charset=utf-8" in
  match fmt.Sprintf0 (String.concat NUL os_Args) with
  | Some out => Some (Write w out)
  | None => None
  end.

(** ** Symbol *)

(** What [Symbol] does with its reader and its writer, in order. *)
Inductive IOEvent :=
| EvReadSlice (line : string) (err : option error)
| EvWrite (data : string).

(** The line [Symbol] prints for a program counter, [%#x %s\n]. *)
Definition symbol_line (pc : Z) (f : runtime.Func) : string :=
  fmt.sharp_x pc ++ " " ++ runtime.Name f ++ LF.

(** What one round of the loop appends to [buf] for the word it has read. *)
Definition lookup_word (functab : list runtime.Func) (word : string) : string :=
  let pc := fst (strconv.ParseUint word 0 64) in
  if pc =? 0 then ""
  else match runtime.FuncForPC functab (runtime.uintptr pc) with
       | Some f => symbol_line pc f
       | None => ""
       end.

(** The [for] loop of [Symbol].  Every round but the last consumes at least
    one byte of the input; [fuel] bounds the number of rounds and [None]
    means it ran out. *)
Fixpoint Symbol_loop (functab : list runtime.Func) (fuel : nat)
    (b : bufio.Reader) (buf : string) (log : list IOEvent)
    : option (string * list IOEvent) :=
  match fuel with
  | O => None
  | S fuel' =>
    let '(word, err, b') := bufio.ReadSlice b "+" in
    let log := (log ++ [EvReadSlice word err])%list in
    let word :=
      match err with
      | None => take (String.length word - 1) word   (* trim + *)
      | Some _ => word
      end in
    let buf := buf ++ lookup_word functab word in
    match err with
    | Some e =>
      Some ((if is_EOF e then buf
             else buf ++ "reading request: " ++ Error e ++ LF), log)
    | None => Symbol_loop functab fuel' b' buf log
    end
  end.

Definition Symbol_reader (r : Request) : bufio.Reader :=
  if String.eqb (Method r) "POST" then bufio.NewReader (Body r)
  else bufio.NewReader (mkSource (RawQuery r) io_EOF false).

Definition Symbol (functab : list runtime.Func) (w : ResponseWriter)
    (r : Request) : option (ResponseWriter * list IOEvent) :=
  let w := SetHeader w "Content-Type" "text/plain; charset=utf-8" in
  let buf := "num_symbols: 1" ++ LF in
  let b := Symbol_reader r in
  match Symbol_loop functab (S (String.length (bufio.pending b))) b buf [] with
  | Some (buf, log) => Some (Write w buf, (log ++ [EvWrite buf])%list)
  | None => None
  end.

(** ** Profile and Trace *)

(** [report.Options], the fields [Profile] sets. *)
Inductive report_Format := report_Text.
Record report_Options := mkOptions {
  OutputFormat : report_Format;
  CumSort : bool;
  PrintAddresses : bool
}.

(** Why [sleep] returned: the timer fired or the client went away. *)
Inductive Wake := TimerFired | ClientGone.

(** What a handler does to the process and to the network, in order. *)
Inductive Event :=
| EvStartCPUProfile (err : option error)
| EvStopCPUProfile
| EvTraceStart (err : option error)
| EvTraceStop
| EvSleep (d : Z) (why : Wake)
| EvSymbolize (source : string).

Section Handlers.

(** The packages [internal/profile], [internal/symbolz] and [internal/report]
    are parameters: the parsed profile, its parser and the report generator
    ([report.NewDefault] followed by [report.Generate], as the text written).
    [atof64] is the number parser behind [strconv.ParseFloat]. *)
Variable Prof : Type.
Variable profile_Parse : string -> Prof + error.
Variable report_Generate : Prof -> report_Options -> string.
Variable atof64 : string -> float * option strconv.NumError.

(** [strconv.ParseFloat(s, 64)]: the empty string is a syntax error. *)
Definition ParseFloat (s : string) : float * option strconv.NumError :=
  if String.eqb s "" then (0%float, Some strconv.ErrSyntax) else atof64 s.

(** A handler as the tree of its calls to the samplers, the clock and the
    symbol server, each with the continuation that receives the answer. *)
Inductive Prog (A : Type) : Type :=
| Ret (a : A)
| StartCPUProfile (k : option error -> Prog A)
| StopCPUProfile (k : string -> Prog A)
| TraceStart (k : option error -> Prog A)
| TraceStop (k : list string -> Prog A)
| Sleep (canNotify : bool) (d : Z) (k : Prog A)
| Symbolize (source : string) (p : Prof) (k : option error * Prof -> Prog A).

Arguments Ret {A} a.
Arguments StartCPUProfile {A} k.
Arguments StopCPUProfile {A} k.
Arguments TraceStart {A} k.
Arguments TraceStop {A} k.
Arguments Sleep {A} canNotify d k.
Arguments Symbolize {A} source p k.

(** [sleep(w, d)]: the client's departure is seen only when [w] is an
    [http.CloseNotifier]. *)
Definition sleep {A} (w : ResponseWriter) (d : Z) (k : Prog A) : Prog A :=
  Sleep (closeNotifier w) d k.

(** [fmt.Fprintf(w, format, err)] for the formats of the handlers. *)
Definition Fprintf_err (w : ResponseWriter) (prefix : string) (e : error)
    : ResponseWriter :=
  Write w (prefix ++ Error e ++ LF).

(** The value of [sec] in [Profile] after its guard. *)
Definition Profile_sec (r : Request) : Z :=
  let sec := fst (strconv.ParseInt (FormValue r "seconds") 10 64) in
  if sec =? 0 then 30 else sec.

(** [time.Duration(sec)*time.Second], an [int64] product. *)
Definition Profile_duration (r : Request) : Z :=
  int64 (Profile_sec r * Second).

Definition Profile (w : ResponseWriter) (r : Request) : Prog ResponseWriter :=
  let binary := fst (strconv.ParseBool (FormValue r "binary")) in
  let cum := fst (strconv.ParseBool (FormValue r "cum")) in
  let w := SetHeader w "Content-Type" "text/plain; charset=utf-8" in
  StartCPUProfile (fun err =>
    match err with
    | Some e =>
      let w := WriteHeader w StatusInternalServerError in
      Ret (Fprintf_err w "Could not enable CPU profiling: " e)
    | None =>
      sleep w (Profile_duration r) (
      StopCPUProfile (fun buf =>
        if binary then
          let w := SetHeader w "Content-Type" "application/octet-stream" in
          Ret (Write w buf)
        else
          match profile_Parse buf with
          | inr e =>
            let w := WriteHeader w StatusInternalServerError in
            Ret (Fprintf_err w "Failed to parse profile: " e)
          | inl prof =>
            Symbolize ("http://" ++ Host r ++ "/symbol") prof (fun reply =>
              let '(err, prof) := reply in
              let w :=
                match err with
                | Some e =>
                  let w := WriteHeader w StatusInternalServerError in
                  Fprintf_err w "Failed to symbolize profile: " e
                | None => w
                end in
              let buf :=
                report_Generate prof (mkOptions report_Text cum true) in
              Ret (Write w buf))
          end))
    end).

(** The value of [sec] in [Trace] after its guard. *)
Definition Trace_sec (r : Request) : float :=
  let '(sec, err) := ParseFloat (FormValue r "seconds") in
  if PrimFloat.leb sec 0%float || (match err with Some _ => true | None => false end)
  then 1%float else sec.

(** [time.Duration(sec*float64(time.Second))]. *)
Definition Trace_duration (r : Request) : Z :=
  float64_to_int64 (PrimFloat.mul (Trace_sec r) 1000000000%float).

Definition Trace (w : ResponseWriter) (r : Request) : Prog ResponseWriter :=
  let w := SetHeader w "Content-Type" "application/octet-stream" in
  TraceStart (fun err =>
    match err with
    | Some e =>
      let w := SetHeader w "Content-Type" "text/plain; charset=utf-8" in
      let w := WriteHeader w StatusInternalServerError in
      Ret (Fprintf_err w "Could not enable tracing: " e)
    | None =>
      sleep w (Trace_duration r) (
      TraceStop (fun chunks => Ret (fold_left Write chunks w)))
    end).

(** ** Running a handler *)

(** What the world answers to one request: the samples the CPU profiler
    delivers into the buffer, the chunks the tracer writes to the response,
    how the wait ends, and what the symbol server does to a profile. *)
Record Env := mkEnv {
  cpu_samples : string;
  trace_chunks : list string;
  wake : Wake;
  symbolz_Symbolize : string -> Prof -> option error * Prof
}.

Definition wake_of (env : Env) (canNotify : bool) : Wake :=
  if canNotify then wake env else TimerFired.

(** One call of a handler: the new sampler state, the rest of the handler and
    the event; [None] when the handler has returned. *)
Definition step {A} (env : Env) (s : sampler.Sampler) (p : Prog A)
    : option (sampler.Sampler * Prog A * Event) :=
  match p with
  | Ret _ => None
  | StartCPUProfile k =>
    let '(err, s') := sampler.StartCPUProfile s in
    Some (s', k err, EvStartCPUProfile err)
  | StopCPUProfile k =>
    Some (sampler.StopCPUProfile s,
          k (if sampler.cpu_profiling s then cpu_samples env else ""),
          EvStopCPUProfile)
  | TraceStart k =>
    let '(err, s') := sampler.TraceStart s in
    Some (s', k err, EvTraceStart err)
  | TraceStop k =>
    Some (sampler.TraceStop s,
          k (if sampler.tracing s then trace_chunks env else []),
          EvTraceStop)
  | Sleep cn d k => Some (s, k, EvSleep d (wake_of env cn))
  | Symbolize source p k =>
    Some (s, k (symbolz_Symbolize env source p), EvSymbolize source)
  end.

(** A handler run to its return, alone: the result, the sampler state it
    leaves and the events, in order. *)
Fixpoint run {A} (env : Env) (p : Prog A) (s : sampler.Sampler)
    (log : list Event) : A * sampler.Sampler * list Event :=
  match p with
  | Ret a => (a, s, log)
  | StartCPUProfile k =>
    let '(err, s') := sampler.StartCPUProfile s in
    run env (k err) s' (log ++ [EvStartCPUProfile err])%list
  | StopCPUProfile k =>
    run env (k (if sampler.cpu_profiling s then cpu_samples env else ""))
      (sampler.StopCPUProfile s) (log ++ [EvStopCPUProfile])%list
  | TraceStart k =>
    let '(err, s') := sampler.TraceStart s in
    run env (k err) s' (log ++ [EvTraceStart err])%list
  | TraceStop k =>
    run env (k (if sampler.tracing s then trace_chunks env else []))
      (sampler.TraceStop s) (log ++ [EvTraceStop])%list
  | Sleep cn d k => run env k s (log ++ [EvSleep d (wake_of env cn)])%list
  | Symbolize source p k =>
    run env (k (symbolz_Symbolize env source p)) s
      (log ++ [EvSymbolize source])%list
  end.

End Handlers.

Arguments Ret {Prof A} a.
Arguments StartCPUProfile {Prof A} k.
Arguments StopCPUProfile {Prof A} k.
Arguments TraceStart {Prof A} k.
Arguments TraceStop {Prof A} k.
Arguments Sleep {Prof A} canNotify d k.
Arguments Symbolize {Prof A} source p k.
Arguments run {Prof A} env p s log.
Arguments step {Prof A} env s p.
Arguments wake_of {Prof} env canNotify.
Arguments cpu_samples {Prof} e.
Arguments trace_chunks {Prof} e.
Arguments symbolz_Symbolize {Prof} e.

(* ================================================================== *)
(** * Two handlers served at once *)

Arguments Prog Prof A : clear implicits.

(** Two handlers, each in its goroutine, over the one sampler of the process.
    Every call of a handler is one atomic step ([pprof.StartCPUProfile] holds
    the profiler's lock), and a schedule says which goroutine moves next. *)
Record Pool (Prof : Type) := mkPool {
  shared : sampler.Sampler;
  thread1 : Prog Prof ResponseWriter;
  log1 : list Event;
  thread2 : Prog Prof ResponseWriter;
  log2 : list Event
}.

Arguments mkPool {Prof} shared thread1 log1 thread2 log2.
Arguments shared {Prof} p.
Arguments thread1 {Prof} p.
Arguments log1 {Prof} p.
Arguments thread2 {Prof} p.
Arguments log2 {Prof} p.

Definition thread_of {Prof} (t : bool) (c : Pool Prof) : Prog Prof ResponseWriter :=
  if t then thread1 c else thread2 c.

Definition log_of {Prof} (t : bool) (c : Pool Prof) : list Event :=
  if t then log1 c else log2 c.

(** The goroutine [t] ([true] is the first) makes its next call; nothing
    happens when its handler has returned. *)
Definition sched_step {Prof} (env1 env2 : Env Prof) (t : bool) (c : Pool Prof)
    : Pool Prof :=
  if t then
    match step env1 (shared c) (thread1 c) with
    | Some (s', p', ev) => mkPool s' p' (log1 c ++ [ev])%list (thread2 c) (log2 c)
    | None => c
    end
  else
    match step env2 (shared c) (thread2 c) with
    | Some (s', p', ev) => mkPool s' (thread1 c) (log1 c) p' (log2 c ++ [ev])%list
    | None => c
    end.

Definition run_schedule {Prof} (env1 env2 : Env Prof) (sched : list bool)
    (c : Pool Prof) : Pool Prof :=
  fold_left (fun c t => sched_step env1 env2 t c) sched c.

Definition is_start_ok (ev : Event) : bool :=
  match ev with EvStartCPUProfile None => true | _ => false end.

Definition is_stop (ev : Event) : bool :=
  match ev with EvStopCPUProfile => true | _ => false end.

(** A goroutine is capturing when it has started the CPU profile and has not
    stopped it. *)
Definition capturing (log : list Event) : bool :=
  existsb is_start_ok log && negb (existsb is_stop log).

(** The number of starts that succeeded. *)
Definition starts_ok (log : list Event) : nat :=
  List.length (filter is_start_ok log).

Definition returned {Prof A} (p : Prog Prof A) : bool :=
  match p with Ret _ => true | _ => false end.

(* ================================================================== *)
(** * Definitions used to state the properties *)

(** The word of a line that ended in the delimiter. *)
Definition trimmed (line : string) : string :=
  take (String.length line - 1) line.

(** The line [Symbol] appends for the error that ended its reading. *)
Definition error_line (e : error) : string :=
  if is_EOF e then "" else "reading request: " ++ Error e ++ LF.

Definition read_ok (line : string) : IOEvent := EvReadSlice line None.

(** What the specification asks of one token: a line [<hex address> <function
    name>] when the token parses as a nonzero unsigned integer that a function
    owns, and nothing otherwise. *)
Definition token_line (functab : list runtime.Func) (tok : string) : string :=
  match strconv.ParseUint tok 0 64 with
  | (pc, None) =>
    if pc =? 0 then ""
    else match runtime.FuncForPC functab pc with
         | Some f => fmt.sharp_x pc ++ " " ++ runtime.Name f ++ LF
         | None => ""
         end
  | (_, Some _) => ""
  end.

(** A token that [ReadSlice] can hand out whole: no delimiter inside, and
    shorter than the buffer. *)
Definition token_ok (tok : string) : bool :=
  lacks "+" tok && (String.length tok <? bufio.defaultBufSize)%nat.

(** A line that [ReadSlice] hands out without an error: a word that
    [token_ok] accepts, and the delimiter after it. *)
Definition whole_line (line : string) : Prop :=
  line = trimmed line ++ "+" /\ token_ok (trimmed line) = true.

Definition text_plain : string := "text/plain; charset=utf-8".
Definition octet_stream : string := "application/octet-stream".

(** The response of a handler whose capture could not start, or whose profile
    could not be parsed: status 500 and one line. *)
Definition failed (w : ResponseWriter) (prefix : string) (e : error)
    : ResponseWriter :=
  Fprintf_err (WriteHeader (SetHeader w "Content-Type" text_plain)
                 StatusInternalServerError) prefix e.

Section Statements.

Variable Prof : Type.
Variable profile_Parse : string -> Prof + error.
Variable report_Generate : Prof -> report_Options -> string.
Variable atof64 : string -> float * option strconv.NumError.

Local Abbreviation Profile := (Profile Prof profile_Parse report_Generate).
Local Abbreviation Env := (Env Prof).
Local Abbreviation Prog := (Prog Prof ResponseWriter).

Definition is_binary (r : Request) : bool :=
  fst (strconv.ParseBool (FormValue r "binary")).
Definition is_cum (r : Request) : bool :=
  fst (strconv.ParseBool (FormValue r "cum")).
Definition symbol_url (r : Request) : string := "http://" ++ Host r ++ "/symbol".

(** The events of a capture that started: start, wait, stop. *)
Definition cpu_capture (env : Env) (w : ResponseWriter) (r : Request)
    : list Event :=
  [ EvStartCPUProfile None;
    EvSleep (Profile_duration r) (wake_of env (closeNotifier w));
    EvStopCPUProfile ].

Definition stopped_cpu (s : sampler.Sampler) : sampler.Sampler :=
  sampler.mkSampler false (sampler.tracing s).

Definition trace_capture (env : Env) (w : ResponseWriter) (r : Request)
    : list Event :=
  [ EvTraceStart None;
    EvSleep (Trace_duration atof64 r) (wake_of env (closeNotifier w));
    EvTraceStop ].

Definition cpu_failed (w : ResponseWriter) : ResponseWriter :=
  failed w "Could not enable CPU profiling: " sampler.cpu_in_use.

(** A handler that no longer touches the sampler: it has returned, or it
    calls the symbol server and returns. *)
Definition quiet (p : Prog) : Prop :=
  (exists a, p = Ret a)
  \/ (exists u prof k, p = Symbolize u prof k /\ forall reply, exists a, k reply = Ret a).

(** Where a goroutine serving [Profile w r] can be, with the events it has
    made so far. *)
Inductive tstate (w : ResponseWriter) (r : Request) : list Event -> Prog -> Prop :=
| ts_start : tstate w r [] (Profile w r)
| ts_failed :
    tstate w r [EvStartCPUProfile (Some sampler.cpu_in_use)] (Ret (cpu_failed w))
| ts_wait cn d k :
    (forall buf, quiet (k buf)) ->
    tstate w r [EvStartCPUProfile None] (Sleep cn d (StopCPUProfile k))
| ts_stop d why k :
    (forall buf, quiet (k buf)) ->
    tstate w r [EvStartCPUProfile None; EvSleep d why] (StopCPUProfile k)
| ts_quiet d why p :
    quiet p ->
    tstate w r [EvStartCPUProfile None; EvSleep d why; EvStopCPUProfile] p
| ts_done d why u a :
    tstate w r [EvStartCPUProfile None; EvSleep d why; EvStopCPUProfile;
                EvSymbolize u] (Ret a).

(** Both requests have arrived, no handler has made a call, and the sampler
    is idle. *)
Definition race_init (w1 w2 : ResponseWriter) (r1 r2 : Request) : Pool Prof :=
  mkPool sampler.idle (Profile w1 r1) [] (Profile w2 r2) [].

(** What holds of the two goroutines and the sampler under every schedule:
    each goroutine is on its path, the sampler is taken exactly when one of
    them is capturing, and they are never capturing together. *)
Definition pool_inv (w1 w2 : ResponseWriter) (r1 r2 : Request) (c : Pool Prof)
    : Prop :=
  tstate w1 r1 (log1 c) (thread1 c)
  /\ tstate w2 r2 (log2 c) (thread2 c)
  /\ sampler.cpu_profiling (shared c) = capturing (log1 c) || capturing (log2 c)
  /\ capturing (log1 c) && capturing (log2 c) = false.

End Statements.

Arguments cpu_capture {Prof} env w r.
Arguments trace_capture {Prof} atof64 env w r.
Arguments mkEnv {Prof} cpu_samples trace_chunks wake symbolz_Symbolize.
Arguments quiet {Prof} p.

(* ================================================================== *)
(** * Sample requests, function table and collaborators *)

Definition GET (query : string) : Request :=
  mkRequest "GET" query "127.0.0.1:6060" (mkSource "" io_EOF false) [].
Definition POST (src : Source) : Request :=
  mkRequest "POST" "" "127.0.0.1:6060" src [].

Definition sample_functab : list runtime.Func :=
  [ runtime.mkFunc 12000 12400 "main.main";
    runtime.mkFunc 67000 68000 "runtime.gopark" ].

(** A stand-in for [profile.Parse]: the profile is its bytes, and no bytes is
    a parse error. *)
Definition sample_Parse (raw : string) : string + error :=
  if String.eqb raw "" then inr (errorString "unrecognized profile format")
  else inl raw.

Definition sample_Generate (prof : string) (o : report_Options) : string :=
  "report of " ++ prof ++ (if CumSort o then " by cum" else " by flat") ++ LF.

(** A stand-in for the number parser of [strconv.ParseFloat]: it knows a few
    numbers and rejects everything else. *)
Definition sample_atof64 (s : string) : float * option strconv.NumError :=
  if String.eqb s "0.5" then (0.5%float, None)
  else if String.eqb s "2" then (2%float, None)
  else if String.eqb s "0" then (0%float, None)
  else if String.eqb s "-3" then ((-3)%float, None)
  else (0%float, Some strconv.ErrSyntax).

Definition request (form : list (string * string)) : Request :=
  mkRequest "GET" "" "127.0.0.1:6060" (mkSource "" io_EOF false) form.

Definition env_resolved : Env string :=
  mkEnv "samples" ["trace header"; "trace events"] TimerFired
    (fun _ prof => (None, prof ++ " with symbols")).

Definition env_unresolved : Env string :=
  mkEnv "samples" [] ClientGone
    (fun _ prof => (Some (errorString "connection refused"), prof)).

Definition env_garbage : Env string :=
  mkEnv "" [] TimerFired (fun _ prof => (None, prof)).

Definition busy_cpu : sampler.Sampler := sampler.mkSampler true false.
Definition busy_trace : sampler.Sampler := sampler.mkSampler false true.

(* ================================================================== *)
(** * Package strconv: Atoi *)

(** The digit loop of the fast path of [Atoi]; [ch -= '0'] is a subtraction
    of bytes.  [None] is the return of a syntax error. *)
Fixpoint Atoi_loop (s : string) (n : Z) : option Z :=
  match s with
  | EmptyString => Some n
  | String c s' =>
    let ch := (byte c - byte "0") mod 256 in
    if ch >? 9 then None else Atoi_loop s' (n * 10 + ch)
  end.

(** [strconv.Atoi(s)], where [int] is 64 bits wide. *)
Definition Atoi (s : string) : Z * option strconv.NumError :=
  let sLen := slen s in
  if (0 <? sLen) && (sLen <? 19) then
    let signed := (at_ s 0 =? byte "-") || (at_ s 0 =? byte "+") in
    let s' := if signed then drop 1 s else s in
    if signed && (slen s' <? 1) then (0, Some strconv.ErrSyntax)
    else
      match Atoi_loop s' 0 with
      | None => (0, Some strconv.ErrSyntax)
      | Some n => ((if at_ s 0 =? byte "-" then - n else n), None)
      end
  else strconv.ParseInt s 10 0.

(** [strings.TrimPrefix(s, prefix)]. *)
Definition TrimPrefix (s prefix : string) : string :=
  if String.prefix prefix s then drop (String.length prefix) s else s.

(* ================================================================== *)
(** * Package profiler: the named profiles and the index page *)

(** What the handler of a named profile does besides writing: the collection
    it forces and the profile it dumps; [Index] logs the error of its
    template. *)
Inductive PEvent :=
| EvGC
| EvWriteTo (name : string) (debug : Z)
| EvLog (e : error).

(** How a handler ends: it returns, or it panics. *)
Inductive Outcome (A : Type) :=
| Returned (a : A)
| Panicked (e : error).

Arguments Returned {A} a.
Arguments Panicked {A} e.

Definition StatusNotFound : Z := 404.

Section NamedProfiles.

(** The registry of runtime/pprof and the package html/template are
    parameters: [pprof.Lookup], [pprof.Profiles], what [Profile.WriteTo]
    writes at a debug level (the chunks, which may depend on whether a
    collection has just run), [Template.Parse] and what [Template.Execute]
    writes, with its error. *)
Variable PProfile : Type.
Variable pprof_Lookup : string -> option PProfile.
Variable pprof_Profiles : list PProfile.
Variable WriteTo : PProfile -> Z -> bool -> list string.
Variable Tmpl : Type.
Variable template_Parse : string -> Tmpl + error.
Variable template_Execute : Tmpl -> list PProfile -> list string * option error.

(** [handler.ServeHTTP], for the profile [name]. *)
Definition ServeHTTP (name : string) (w : ResponseWriter) (r : Request)
    : ResponseWriter * list PEvent :=
  let w := SetHeader w "Content-Type" "text/plain; charset=utf-8" in
  let debug := fst (Atoi (FormValue r "debug")) in
  match pprof_Lookup name with
  | None =>
    let w := WriteHeader w StatusNotFound in
    (Write w ("Unknown profile: " ++ name ++ LF), [])
  | Some p =>
    let gc := fst (Atoi (FormValue r "gc")) in
    let collect := String.eqb name "heap" && (gc >? 0) in
    (fold_left Write (WriteTo p debug collect) w,
     ((if collect then [EvGC] else []) ++ [EvWriteTo name debug])%list)
  end.

(** [Profiler.Index], of a profiler whose template is [htmlTemplate], for a
    request whose [URL.Path] is [path]. *)
Definition Index (htmlTemplate : string) (w : ResponseWriter) (path : string)
    (r : Request) : Outcome (ResponseWriter * list PEvent) :=
  if negb (String.eqb path "/") then
    Returned (ServeHTTP (TrimPrefix path "/") w r)
  else
    let profiles := pprof_Profiles in
    match template_Parse htmlTemplate with
    | inr e => Panicked e                               (* template.Must *)
    | inl indexTmpl =>
      let '(chunks, err) := template_Execute indexTmpl profiles in
      Returned (fold_left Write chunks w,
                match err with Some e => [EvLog e] | None => [] end)
    end.

End NamedProfiles.

Arguments ServeHTTP {PProfile} pprof_Lookup WriteTo name w r.
Arguments Index {PProfile} pprof_Lookup pprof_Profiles WriteTo {Tmpl}
  template_Parse template_Execute htmlTemplate w path r.

(* ================================================================== *)
(** * Package profiler: the profiler, its options and its server *)

(** The handlers [registerHandlers] binds. *)
Inductive Endpoint := EpIndex | EpProfile | EpCmdline | EpSymbol | EpTrace.

(** An [http.ServeMux]: the patterns registered, in order. *)
Definition ServeMux := list (string * Endpoint).

(** An [http.Handler], as far as the profiler tells handlers apart: a mux
    with its registrations, a handler of the caller's, known by a name, or a
    handler a middleware has wrapped.  How a mux serves a request (it cleans
    the path, redirects, and matches its patterns) is the business of
    [net/http] and is not modelled. *)
Inductive Handler :=
| mux_Handler (mux : ServeMux)
| named_Handler (name : string)
| wrapped_Handler (by_ : string) (inner : Handler).

(** The mux of [registerHandlers]. *)
Definition muxer : ServeMux :=
  [ ("/", EpIndex); ("/profile", EpProfile); ("/cmdline", EpCmdline);
    ("/symbol", EpSymbol); ("/trace", EpTrace) ].

(** An [http.Server], the fields the profiler touches. *)
Record Server := mkServer { Addr : string; Handler_ : option Handler }.

(** The servers of the process, each at its address; a [*http.Server] is an
    address, or nil. *)
Definition Heap := list Server.
Definition Pointer := option nat.

Fixpoint set_nth {A} (l : list A) (i : nat) (x : A) : list A :=
  match l, i with
  | [], _ => []
  | _ :: t, O => x :: t
  | h :: t, S i' => h :: set_nth t i' x
  end.

(** [Profiler].  The error handler returns, or panics with a value. *)
Record Profiler := mkProfiler {
  server : Pointer;
  middleware : option (Handler -> Handler);
  certFile : string;
  keyFile : string;
  htmlTemplate : string;
  errorHandler : option (error -> option error)
}.

Definition nil_dereference : error :=
  errorString "runtime error: invalid memory address or nil pointer dereference".

Definition defaultAddr : string := "127.0.0.1:6060".

(** [defaultErrorHandler] does nothing. *)
Definition defaultErrorHandler : error -> option error := fun _ => None.

(** A functional option acts on the profiler and, through its pointer, on
    the servers; [None] is a panic. *)
Definition ProfilerOption := Profiler * Heap -> option (Profiler * Heap).

Definition WithServer (srv : Pointer) : ProfilerOption :=
  fun '(p, h) =>
    Some (mkProfiler srv (middleware p) (certFile p) (keyFile p)
            (htmlTemplate p) (errorHandler p), h).

Definition WithAddr (addr : string) : ProfilerOption :=
  fun '(p, h) =>
    match server p with
    | None => None
    | Some a =>
      match nth_error h a with
      | None => None
      | Some s => Some (p, set_nth h a (mkServer addr (Handler_ s)))
      end
    end.

Definition WithKeyPair (cert key : string) : ProfilerOption :=
  fun '(p, h) =>
    Some (mkProfiler (server p) (middleware p) cert key (htmlTemplate p)
            (errorHandler p), h).

Definition WithMiddleware (m : option (Handler -> Handler)) : ProfilerOption :=
  fun '(p, h) =>
    Some (mkProfiler (server p) m (certFile p) (keyFile p) (htmlTemplate p)
            (errorHandler p), h).

Definition WithHTMLTemplate (template : string) : ProfilerOption :=
  fun '(p, h) =>
    Some (mkProfiler (server p) (middleware p) (certFile p) (keyFile p)
            template (errorHandler p), h).

Definition WithErrorHandler (handlerFunc : option (error -> option error))
    : ProfilerOption :=
  fun '(p, h) =>
    Some (mkProfiler (server p) (middleware p) (certFile p) (keyFile p)
            (htmlTemplate p) handlerFunc, h).

(** The handler [registerHandlers] gives the server. *)
Definition handler_of (p : Profiler) : Handler :=
  match middleware p with
  | None => mux_Handler muxer
  | Some m => m (mux_Handler muxer)
  end.

Definition registerHandlers : ProfilerOption :=
  fun '(p, h) =>
    match server p with
    | None => None
    | Some a =>
      match nth_error h a with
      | None => None
      | Some s => Some (p, set_nth h a (mkServer (Addr s) (Some (handler_of p))))
      end
    end.

(** The loop of [New] over its options. *)
Fixpoint apply_options (options : list ProfilerOption) (st : Profiler * Heap)
    : option (Profiler * Heap) :=
  match options with
  | [] => Some st
  | option :: options' =>
    match option st with
    | Some st' => apply_options options' st'
    | None => None
    end
  end.

(** [New(options...)]: the profiler has a new server, at the first free
    address.  [defaultHTMLTemplate], whose text holds quotation marks, is a
    parameter. *)
Definition New_start (defaultHTMLTemplate : string) (h : Heap)
    : Profiler * Heap :=
  (mkProfiler (Some (List.length h)) None "" "" defaultHTMLTemplate
     (Some defaultErrorHandler),
   (h ++ [mkServer defaultAddr None])%list).

Definition New (defaultHTMLTemplate : string) (options : list ProfilerOption)
    (h : Heap) : option (Profiler * Heap) :=
  match apply_options options (New_start defaultHTMLTemplate h) with
  | Some st => registerHandlers st
  | None => None
  end.

(** The call [Run] makes in its goroutine, and how the goroutine ends. *)
Inductive ListenCall :=
| ListenAndServe (srv : nat)
| ListenAndServeTLS (srv : nat) (certFile keyFile : string).

(** [Run], given the error each listener ends with: the listener called, if
    any, and the end of the goroutine ([Some e] is a panic, which ends the
    process). *)
Definition Run (p : Profiler) (listen : ListenCall -> error)
    : option ListenCall * option error :=
  match server p with
  | None => (None, Some nil_dereference)
  | Some a =>
    let call :=
      if negb (String.eqb (certFile p) "") && negb (String.eqb (keyFile p) "")
      then ListenAndServeTLS a (certFile p) (keyFile p)
      else ListenAndServe a in
    match errorHandler p with
    | None => (Some call, Some nil_dereference)
    | Some handle => (Some call, handle (listen call))
    end
  end.

(** The number of calls a [Profile] handler has yet to make, at most. *)
Definition calls_left {Prof A} (p : Prog Prof A) : nat :=
  match p with
  | Ret _ => 0
  | Symbolize _ _ _ => 1
  | StopCPUProfile _ => 2
  | Sleep _ _ _ => 3
  | _ => 4
  end.

(** A server of the caller's, with a handler of its own. *)
Definition sample_server : Server :=
  mkServer ":9090" (Some (named_Handler "application")).

(** Sample registry: two profiles, dumped as one line. *)
Definition sample_Lookup (name : string) : option string :=
  if String.eqb name "heap" || String.eqb name "goroutine" then Some name
  else None.

Definition sample_WriteTo (p : string) (debug : Z) (collected : bool)
    : list string :=
  [p ++ (if collected then " profile after collection" else " profile") ++ LF].

Definition sample_template_Parse (t : string) : string + error :=
  if String.eqb t "{{" then inr (errorString "template: index:1: unclosed action")
  else inl t.

Definition sample_template_Execute (t : string) (profiles : list string)
    : list string * option error :=
  ([t], None).

(* ================================================================== *)
(** * The models of the library on examples *)

Example ParseUint_dec : strconv.ParseUint "12345" 0 64 = (12345, None).
Proof. vm_compute. reflexivity. Qed.
Example ParseUint_hex : strconv.ParseUint "0x1F" 0 64 = (31, None).
Proof. vm_compute. reflexivity. Qed.
Example ParseUint_oct : strconv.ParseUint "017" 0 64 = (15, None).
Proof. vm_compute. reflexivity. Qed.
Example ParseUint_bad : strconv.ParseUint "badtoken" 0 64 = (0, Some strconv.ErrSyntax).
Proof. vm_compute. reflexivity. Qed.
Example ParseUint_range :
  strconv.ParseUint "18446744073709551616" 0 64 = (maxUint64, Some strconv.ErrRange).
Proof. vm_compute. reflexivity. Qed.
Example ParseUint_max :
  strconv.ParseUint "18446744073709551615" 0 64 = (maxUint64, None).
Proof. vm_compute. reflexivity. Qed.
Example ParseUint_us : strconv.ParseUint "1_000" 0 64 = (1000, None).
Proof. vm_compute. reflexivity. Qed.
Example ParseUint_us_bad : strconv.ParseUint "1__000" 0 64 = (0, Some strconv.ErrSyntax).
Proof. vm_compute. reflexivity. Qed.
Example ParseInt_neg : strconv.ParseInt "-5" 10 64 = (-5, None).
Proof. vm_compute. reflexivity. Qed.
Example ParseInt_big :
  strconv.ParseInt "99999999999999999999" 10 64 = (maxInt64, Some strconv.ErrRange).
Proof. vm_compute. reflexivity. Qed.
Example ParseInt_min :
  strconv.ParseInt "-9223372036854775808" 10 64 = (minInt64, None).
Proof. vm_compute. reflexivity. Qed.
Example ParseInt_frac : strconv.ParseInt "1.5" 10 64 = (0, Some strconv.ErrSyntax).
Proof. vm_compute. reflexivity. Qed.

Example sharp_x_1 : fmt.sharp_x 12345 = "0x3039".
Proof. vm_compute. reflexivity. Qed.
Example sharp_x_max : fmt.sharp_x maxUint64 = "0xffffffffffffffff".
Proof. vm_compute. reflexivity. Qed.
Example Sprintf0_plain : fmt.Sprintf0 "num_symbols: 1" = Some "num_symbols: 1".
Proof. vm_compute. reflexivity. Qed.
Example Sprintf0_pct : fmt.Sprintf0 "100%" = Some "100%!(NOVERB)".
Proof. vm_compute. reflexivity. Qed.
Example Sprintf0_d : fmt.Sprintf0 "a%db" = Some "a%!d(MISSING)b".
Proof. vm_compute. reflexivity. Qed.
Example Sprintf0_pp : fmt.Sprintf0 "50%% off" = Some "50% off".
Proof. vm_compute. reflexivity. Qed.

Example float_second :
  float64_to_int64 (PrimFloat.mul 1%float 1000000000%float) = Second.
Proof. vm_compute. reflexivity. Qed.
Example float_tenth :
  float64_to_int64 (PrimFloat.mul 0.5%float 1000000000%float) = 500000000.
Proof. vm_compute. reflexivity. Qed.

(** A body of exactly 4096 bytes without a [+]: when its end comes with its
    last bytes, [ReadSlice] returns them with [io.EOF]; when it comes after
    them, the buffer is full first. *)
Example Symbol_full_buffer_example :
  let body_of d :=
    option_map (fun x => body (fst x))
      (Symbol sample_functab (newResponseWriter true)
         (POST (mkSource (replicate 4096 "0") io_EOF d))) in
  body_of true = Some ("num_symbols: 1" ++ LF)
  /\ body_of false
     = Some ("num_symbols: 1" ++ LF ++ "reading request: bufio: buffer full" ++ LF).
Proof. vm_compute. split; reflexivity. Qed.

(** A POST body cut short: the lines found so far are kept and the error is
    reported after them. *)
Example Symbol_cut_body_example :
  option_map (fun x => body (fst x))
    (Symbol sample_functab (newResponseWriter true)
       (POST (mkSource "12345+67" (errorString "unexpected EOF") false)))
  = Some ("num_symbols: 1" ++ LF ++ "0x3039 main.main" ++ LF
          ++ "reading request: unexpected EOF" ++ LF).
Proof. vm_compute. reflexivity. Qed.

(** A text profile whose symbols resolve: status 200 and the report. *)
Example Profile_text_example :
  let w1 := fst (fst (run env_resolved
                        (Profile string sample_Parse sample_Generate
                           (newResponseWriter true) (request [("cum", "1")]))
                        sampler.idle [])) in
  status w1 = 200
  /\ Header_Get (sentHeader w1) "Content-Type" = "text/plain; charset=utf-8"
  /\ body w1 = "report of samples with symbols by cum" ++ LF.
Proof. vm_compute. repeat split. Qed.

(** A binary profile is the bytes captured, as an octet stream. *)
Example Profile_binary_example :
  let w1 := fst (fst (run env_resolved
                        (Profile string sample_Parse sample_Generate
                           (newResponseWriter true) (request [("binary", "true")]))
                        sampler.idle [])) in
  status w1 = 200
  /\ Header_Get (sentHeader w1) "Content-Type" = "application/octet-stream"
  /\ body w1 = "samples".
Proof. vm_compute. repeat split. Qed.

(** A trace of half a second. *)
Example Trace_example :
  run env_resolved
    (Trace string sample_atof64 (newResponseWriter true) (request [("seconds", "0.5")]))
    sampler.idle []
  = (fold_left Write ["trace header"; "trace events"]
       (SetHeader (newResponseWriter true) "Content-Type" "application/octet-stream"),
     sampler.idle,
     [EvTraceStart None; EvSleep 500000000 TimerFired; EvTraceStop]).
Proof. vm_compute. reflexivity. Qed.

Example Symbol_spec_example :
  option_map (fun x => body (fst x))
    (Symbol sample_functab (newResponseWriter true) (GET "12345+0+badtoken+67890"))
  = Some ("num_symbols: 1" ++ LF ++ "0x3039 main.main" ++ LF
          ++ "0x10932 runtime.gopark" ++ LF).
Proof. vm_compute. reflexivity. Qed.

(* ================================================================== *)
(** * Strings: append, take, drop and IndexByte *)

Lemma sapp_assoc (a b c : string) : (a ++ b) ++ c = a ++ (b ++ c).
Proof. induction a as [|ch a IH]; simpl; [reflexivity | now rewrite IH]. Qed.

Lemma sapp_nil_r (a : string) : a ++ "" = a.
Proof. induction a as [|ch a IH]; simpl; [reflexivity | now rewrite IH]. Qed.

Lemma slength_app (a b : string) :
  String.length (a ++ b) = (String.length a + String.length b)%nat.
Proof. induction a as [|ch a IH]; simpl; [reflexivity | now rewrite IH]. Qed.

Lemma take_app_exact (a b : string) : take (String.length a) (a ++ b) = a.
Proof. induction a as [|ch a IH]; simpl; [now destruct b | now rewrite IH]. Qed.

Lemma drop_app_exact (a b : string) : drop (String.length a) (a ++ b) = b.
Proof. induction a as [|ch a IH]; simpl; [reflexivity | exact IH]. Qed.

Lemma take_all (n : nat) (a : string) :
  (String.length a <= n)%nat -> take n a = a.
Proof.
  revert n; induction a as [|ch a IH]; intros [|n] H; simpl in *;
    try reflexivity; try lia.
  f_equal. apply IH. lia.
Qed.

Lemma take_drop (n : nat) (a : string) : take n a ++ drop n a = a.
Proof.
  revert a; induction n as [|n IH]; intros [|ch a]; simpl; try reflexivity.
  now rewrite IH.
Qed.

Lemma drop_length (n : nat) (a : string) :
  String.length (drop n a) = (String.length a - n)%nat.
Proof.
  revert a; induction n as [|n IH]; intros [|ch a]; simpl; try reflexivity.
  apply IH.
Qed.

Lemma take_length (n : nat) (a : string) :
  String.length (take n a) = Nat.min n (String.length a).
Proof.
  revert a; induction n as [|n IH]; intros [|ch a]; simpl; try reflexivity.
  now rewrite IH.
Qed.

Lemma IndexByte_lacks (c : ascii) (s : string) :
  lacks c s = true -> bufio.IndexByte s c = None.
Proof.
  induction s as [|ch s IH]; simpl; [reflexivity|].
  intros H. apply andb_prop in H as [H1 H2].
  destruct (Ascii.eqb ch c); [discriminate|]. now rewrite IH.
Qed.

Lemma IndexByte_app_delim (c : ascii) (a b : string) :
  lacks c a = true ->
  bufio.IndexByte (a ++ String c b) c = Some (String.length a).
Proof.
  induction a as [|ch a IH]; simpl; intros H.
  - now rewrite Ascii.eqb_refl.
  - apply andb_prop in H as [H1 H2].
    destruct (Ascii.eqb ch c); [discriminate|]. now rewrite IH.
Qed.

Lemma IndexByte_bound (c : ascii) (s : string) (i : nat) :
  bufio.IndexByte s c = Some i -> (i < String.length s)%nat.
Proof.
  revert i; induction s as [|ch s IH]; simpl; intros i H; [discriminate|].
  destruct (Ascii.eqb ch c).
  - injection H as <-. lia.
  - destruct (bufio.IndexByte s c) as [j|]; [|discriminate].
    injection H as <-. specialize (IH j eq_refl). lia.
Qed.

Lemma take_take_app (n : nat) (a b : string) :
  (String.length a <= n)%nat -> exists b', take n (a ++ b) = a ++ b'.
Proof.
  revert n; induction a as [|ch a IH]; intros n H; simpl in *.
  - now exists (take n b).
  - destruct n as [|n]; [lia|]. simpl.
    destruct (IH n ltac:(lia)) as [b' Hb']. exists b'. now rewrite Hb'.
Qed.

(* ================================================================== *)
(** * ReadSlice *)

(** A token followed by its delimiter is handed out whole when it fits the
    buffer. *)
Lemma ReadSlice_token (tok rest : string) (e : error) (d : bool) :
  lacks "+" tok = true ->
  (String.length tok < bufio.defaultBufSize)%nat ->
  bufio.ReadSlice (bufio.mkReader (tok ++ String "+" rest) e d) "+"
  = (tok ++ "+", None, bufio.mkReader rest e d).
Proof.
  intros Hl. unfold bufio.ReadSlice.
  cbn [bufio.pending bufio.src_err bufio.err_with_data].
  generalize bufio.defaultBufSize as size. intros size Hn.
  assert (E : tok ++ String "+" rest = (tok ++ "+") ++ rest)
    by (rewrite sapp_assoc; reflexivity).
  destruct (take_take_app size (tok ++ "+") rest) as [b' Hb'].
  { rewrite slength_app. simpl. lia. }
  rewrite E at 1. rewrite Hb'. rewrite sapp_assoc. cbn [append].
  rewrite (IndexByte_app_delim "+" tok b' Hl).
  assert (L : S (String.length tok) = String.length (tok ++ "+"))
    by (rewrite slength_app; simpl; lia).
  rewrite L, E, take_app_exact, drop_app_exact. reflexivity.
Qed.

(** The last token, which no delimiter follows, comes with the error that
    ends the source. *)
Lemma ReadSlice_last (tok : string) (e : error) (d : bool) :
  lacks "+" tok = true ->
  (String.length tok < bufio.defaultBufSize)%nat ->
  bufio.ReadSlice (bufio.mkReader tok e d) "+"
  = (tok, Some e, bufio.mkReader "" e d).
Proof.
  intros Hl. unfold bufio.ReadSlice.
  cbn [bufio.pending bufio.src_err bufio.err_with_data].
  generalize bufio.defaultBufSize as size. intros size Hn.
  rewrite (take_all size tok) by lia.
  rewrite (IndexByte_lacks "+" tok Hl).
  apply Nat.ltb_lt in Hn. rewrite Hn. reflexivity.
Qed.

(** What [ReadSlice] returns in general: a piece of the input, cut at its
    front; without an error the piece is not empty; an error is the one that
    ends the source, once everything is handed out, or [ErrBufferFull]. *)
Lemma ReadSlice_cases (b : bufio.Reader) (c : ascii) :
  forall line err b', bufio.ReadSlice b c = (line, err, b') ->
    bufio.pending b = line ++ bufio.pending b'
    /\ bufio.src_err b' = bufio.src_err b
    /\ match err with
       | None => (String.length (bufio.pending b') < String.length (bufio.pending b))%nat
       | Some e => (e = bufio.src_err b /\ bufio.pending b' = "")
                   \/ e = bufio_ErrBufferFull
       end.
Proof.
  intros line err b'. unfold bufio.ReadSlice.
  generalize bufio.defaultBufSize as size. intros size.
  destruct (bufio.IndexByte (take size (bufio.pending b)) c) as [i|] eqn:Ei.
  - intros H; injection H as <- <- <-.
    apply IndexByte_bound in Ei. rewrite take_length in Ei.
    pose proof (drop_length (S i) (bufio.pending b)) as Hd.
    split; [exact (eq_sym (take_drop (S i) (bufio.pending b)))|].
    split; [reflexivity|].
    change (String.length (drop (S i) (bufio.pending b))
            < String.length (bufio.pending b))%nat.
    lia.
  - destruct ((String.length (bufio.pending b) <? size)%nat
              || (String.length (bufio.pending b) =? size)%nat
                 && bufio.err_with_data b);
      intros H; injection H as <- <- <-; cbn [bufio.pending bufio.src_err].
    + split; [now rewrite sapp_nil_r|]. split; [reflexivity|]. left. now split.
    + split; [symmetry; apply take_drop|]. split; [reflexivity|]. now right.
Qed.

(* ================================================================== *)
(** * The loop of Symbol *)

Lemma trimmed_token (tok : string) : trimmed (tok ++ "+") = tok.
Proof.
  unfold trimmed. rewrite slength_app. simpl.
  replace (String.length tok + 1 - 1)%nat with (String.length tok) by lia.
  apply take_app_exact.
Qed.

(** The loop returns, whatever the input: it reads lines without error, then
    one last piece with an error, and [buf] grows by what each word looks up
    and by the error line. *)
Lemma Symbol_loop_spec (functab : list runtime.Func) :
  forall fuel b buf log,
    (String.length (bufio.pending b) < fuel)%nat ->
    exists lines last e rest,
      Symbol_loop functab fuel b buf log
      = Some (buf ++ String.concat "" (map (fun l => lookup_word functab (trimmed l)) lines)
                  ++ lookup_word functab last ++ error_line e,
              (log ++ map read_ok lines ++ [EvReadSlice last (Some e)])%list)
      /\ bufio.pending b = String.concat "" lines ++ last ++ rest
      /\ ((e = bufio.src_err b /\ rest = "") \/ e = bufio_ErrBufferFull).
Proof.
  induction fuel as [|fuel IH]; intros b buf log Hf; [lia|].
  cbn [Symbol_loop].
  destruct (bufio.ReadSlice b "+") as [[line err] b'] eqn:ER.
  destruct (ReadSlice_cases b "+" line err b' ER) as (Hp & He & Hc).
  destruct err as [e|].
  - exists [], line, e, (bufio.pending b'). cbn [map String.concat app].
    split; [|split].
    + unfold error_line. destruct (is_EOF e); cbn [append];
        rewrite ?sapp_assoc, ?sapp_nil_r; reflexivity.
    + exact Hp.
    + destruct Hc as [[-> ->] | ->]; [left; now split | now right].
  - destruct (IH b' (buf ++ lookup_word functab (trimmed line))
                (log ++ [read_ok line])%list ltac:(lia))
      as (lines & last & e & rest & E & Hp' & Hc').
    exists (line :: lines), last, e, rest. split; [|split].
    + unfold trimmed in E |- *. unfold read_ok in E at 1. rewrite E. f_equal. f_equal.
      * rewrite sapp_assoc. f_equal.
        destruct lines; cbn [map String.concat]; [reflexivity|].
        cbn [append]. rewrite sapp_assoc. reflexivity.
      * rewrite <- app_assoc. reflexivity.
    + rewrite Hp, Hp'.
      destruct lines; cbn [String.concat append]; rewrite ?sapp_assoc; reflexivity.
    + rewrite <- He. exact Hc'.
Qed.

Lemma IndexByte_None_lacks (c : ascii) (s : string) :
  bufio.IndexByte s c = None -> lacks c s = true.
Proof.
  induction s as [|ch s IH]; simpl; [reflexivity|].
  destruct (Ascii.eqb ch c); [discriminate|].
  destruct (bufio.IndexByte s c); [discriminate|]. intros _. now rewrite IH.
Qed.

(** The first delimiter among the first [n] bytes ends a word without a
    delimiter. *)
Lemma IndexByte_take_split (c : ascii) :
  forall n s i, bufio.IndexByte (take n s) c = Some i ->
    (i < n)%nat /\ String.length (take i s) = i /\ lacks c (take i s) = true
    /\ take (S i) s = take i s ++ String c "".
Proof.
  induction n as [|n IH]; intros [|ch s] i; cbn [take bufio.IndexByte];
    try discriminate.
  destruct (Ascii.eqb ch c) eqn:Ec.
  - apply Ascii.eqb_eq in Ec as ->. intros H; injection H as <-.
    cbn [take append lacks String.length]. repeat split. lia.
  - destruct (bufio.IndexByte (take n s) c) as [j|] eqn:E; [|discriminate].
    intros H; injection H as <-. destruct (IH s j E) as (H1 & H2 & H3 & H4).
    change (take (S (S j)) (String ch s)) with (String ch (take (S j) s)).
    change (take (S j) (String ch s)) with (String ch (take j s)).
    cbn [append lacks String.length]. rewrite Ec, H2, H3, H4.
    repeat split. lia.
Qed.

(** What [ReadSlice] hands out, exactly: without an error a whole line; with
    the error of the source all that was left, which the source had already
    delivered; with [ErrBufferFull] a full buffer, and either more is left or
    the source has not yet reported its end. *)
Lemma ReadSlice_exact (b : bufio.Reader) :
  forall line err b', bufio.ReadSlice b "+" = (line, err, b') ->
    bufio.err_with_data b' = bufio.err_with_data b
    /\ match err with
       | None => whole_line line
       | Some e =>
         lacks "+" line = true
         /\ ((e = bufio.src_err b /\ bufio.pending b' = ""
              /\ ((String.length line < bufio.defaultBufSize)%nat
                  \/ (String.length line = bufio.defaultBufSize
                      /\ bufio.err_with_data b = true)))
             \/ (e = bufio_ErrBufferFull
                 /\ String.length line = bufio.defaultBufSize
                 /\ (bufio.pending b' <> "" \/ bufio.err_with_data b = false)))
       end.
Proof.
  intros line err b'. unfold bufio.ReadSlice, whole_line, token_ok.
  generalize bufio.defaultBufSize as size. intros size.
  destruct (bufio.IndexByte (take size (bufio.pending b)) "+") as [i|] eqn:Ei.
  - intros H.
    assert (Hline : take (S i) (bufio.pending b) = line) by congruence.
    assert (Herr : None = err) by congruence.
    assert (Hb : bufio.mkReader (drop (S i) (bufio.pending b)) (bufio.src_err b)
                   (bufio.err_with_data b) = b') by congruence.
    clear H. subst line err b'. split; [reflexivity|].
    destruct (IndexByte_take_split "+" size (bufio.pending b) i Ei)
      as (H1 & H2 & H3 & H4).
    rewrite H4. change (String "+" "") with "+". rewrite trimmed_token.
    split; [reflexivity|]. rewrite H3, H2. apply Nat.ltb_lt in H1. now rewrite H1.
  - apply IndexByte_None_lacks in Ei.
    destruct (String.length (bufio.pending b) <? size)%nat eqn:El.
    + intros H; injection H as <- <- <-. cbn [bufio.pending bufio.err_with_data].
      apply Nat.ltb_lt in El. rewrite take_all in Ei by lia.
      split; [reflexivity|]. split; [exact Ei|]. left. repeat split. now left.
    + apply Nat.ltb_ge in El.
      destruct (String.length (bufio.pending b) =? size)%nat eqn:Ee;
        [destruct (bufio.err_with_data b) eqn:Ed|];
        intros H; injection H as <- <- <-; cbn [bufio.pending bufio.err_with_data];
        (split; [reflexivity|]).
      * apply Nat.eqb_eq in Ee. rewrite take_all in Ei by lia.
        split; [exact Ei|]. left. repeat split. right. now split.
      * split; [exact Ei|]. right. rewrite take_length. repeat split; [lia|].
        now right.
      * split; [exact Ei|]. right. rewrite take_length. repeat split; [lia|].
        left. intros Hd. apply Nat.eqb_neq in Ee.
        pose proof (drop_length size (bufio.pending b)) as L.
        rewrite Hd in L. cbn [String.length] in L. lia.
Qed.

(** The loop, read by read: whole lines, then the piece that came with the
    error. *)
Lemma Symbol_loop_reads (functab : list runtime.Func) :
  forall fuel b buf log,
    (String.length (bufio.pending b) < fuel)%nat ->
    exists lines last e rest,
      Symbol_loop functab fuel b buf log
      = Some (buf ++ String.concat "" (map (fun l => lookup_word functab (trimmed l)) lines)
                  ++ lookup_word functab last ++ error_line e,
              (log ++ map read_ok lines ++ [EvReadSlice last (Some e)])%list)
      /\ bufio.pending b = String.concat "" lines ++ last ++ rest
      /\ Forall whole_line lines
      /\ lacks "+" last = true
      /\ ((e = bufio.src_err b /\ rest = ""
           /\ ((String.length last < bufio.defaultBufSize)%nat
               \/ (String.length last = bufio.defaultBufSize
                   /\ bufio.err_with_data b = true)))
          \/ (e = bufio_ErrBufferFull
              /\ String.length last = bufio.defaultBufSize
              /\ (rest <> "" \/ bufio.err_with_data b = false))).
Proof.
  induction fuel as [|fuel IH]; intros b buf log Hf; [lia|].
  cbn [Symbol_loop].
  destruct (bufio.ReadSlice b "+") as [[line err] b'] eqn:ER.
  destruct (ReadSlice_cases b "+" line err b' ER) as (Hp & He & Hc).
  destruct (ReadSlice_exact b line err b' ER) as (Hd & Hx).
  destruct err as [e|].
  - exists [], line, e, (bufio.pending b'). cbn [map String.concat app].
    destruct Hx as [Hl Hx].
    split; [|split; [|split; [|split]]].
    + unfold error_line. destruct (is_EOF e); cbn [append];
        rewrite ?sapp_assoc, ?sapp_nil_r; reflexivity.
    + exact Hp.
    + constructor.
    + exact Hl.
    + exact Hx.
  - destruct (IH b' (buf ++ lookup_word functab (trimmed line))
                (log ++ [read_ok line])%list ltac:(lia))
      as (lines & last & e & rest & E & Hp' & Hw & Hl & Hx').
    exists (line :: lines), last, e, rest.
    split; [|split; [|split; [|split]]].
    + unfold trimmed in E |- *. unfold read_ok in E at 1. rewrite E. f_equal. f_equal.
      * rewrite sapp_assoc. f_equal.
        destruct lines; cbn [map String.concat]; [reflexivity|].
        cbn [append]. rewrite sapp_assoc. reflexivity.
      * rewrite <- app_assoc. reflexivity.
    + rewrite Hp, Hp'.
      destruct lines; cbn [String.concat append]; rewrite ?sapp_assoc; reflexivity.
    + constructor; [exact Hx | exact Hw].
    + exact Hl.
    + rewrite <- He, <- Hd. exact Hx'.
Qed.

(* ================================================================== *)
(** * ParseUint: the values it returns *)

Lemma uint64_range (z : Z) : 0 <= uint64 z < two64.
Proof. unfold uint64. apply Z.mod_pos_bound. reflexivity. Qed.

Lemma ParseUint_loop_early base base0 cutoff maxVal s :
  forall n u v e,
    strconv.ParseUint_loop base base0 cutoff maxVal s n u = inl (v, e) ->
    v = 0 \/ v = maxVal.
Proof.
  induction s as [|ch s IH]; intros n u v e; cbn [strconv.ParseUint_loop].
  - discriminate.
  - destruct ((byte ch =? byte "_") && base0); [apply IH|].
    match goal with |- context [match ?x with Some _ => _ | None => _ end] =>
      destruct x as [d|] end.
    2:{ intros H; injection H as <- <-. now left. }
    destruct (d >=? base). { intros H; injection H as <- <-. now left. }
    destruct (n >=? cutoff). { intros H; injection H as <- <-. now right. }
    match goal with |- context [if ?c then _ else _] => destruct c end.
    { intros H; injection H as <- <-. now right. }
    apply IH.
Qed.

Lemma ParseUint_loop_range base base0 cutoff maxVal s :
  forall n u v u',
    0 <= n < two64 ->
    strconv.ParseUint_loop base base0 cutoff maxVal s n u = inr (v, u') ->
    0 <= v < two64.
Proof.
  induction s as [|ch s IH]; intros n u v u' Hn; cbn [strconv.ParseUint_loop].
  - intros H; injection H as <- <-. exact Hn.
  - destruct ((byte ch =? byte "_") && base0); [now apply IH|].
    match goal with |- context [match ?x with Some _ => _ | None => _ end] =>
      destruct x as [d|] end; [|discriminate].
    destruct (d >=? base); [discriminate|].
    destruct (n >=? cutoff); [discriminate|].
    match goal with |- context [if ?c then _ else _] => destruct c end;
      [discriminate|].
    apply IH. apply uint64_range.
Qed.

(** [ParseUint(s, 0, 64)] returns a [uint64]; with an error, it is 0 or the
    largest [uint64]. *)
Lemma ParseUint_value (s : string) (v : Z) (err : option strconv.NumError) :
  strconv.ParseUint s 0 64 = (v, err) ->
  0 <= v < two64 /\ (err <> None -> v = 0 \/ v = maxUint64).
Proof.
  assert (R0 : 0 <= 0 < two64) by (split; [lia | reflexivity]).
  unfold strconv.ParseUint.
  destruct (String.eqb s "").
  { intros H; injection H as <- <-. split; [exact R0 | now left]. }
  change ((2 <=? 0) && (0 <=? 36)) with false.
  change (0 =? 0) with true. cbv iota.
  match goal with |- context [match ?p with Some _ => _ | None => _ end] =>
    destruct p as [[base s']|] end.
  2:{ intros H; injection H as <- <-. split; [exact R0 | now left]. }
  change ((64 <? 0) || (64 <? 64)) with false. cbv iota.
  change (if 64 =? 0 then strconv.IntSize else 64) with 64.
  change (uint64 (uint64 (Z.shiftl 1 64) - 1)) with maxUint64.
  destruct (strconv.ParseUint_loop base true (maxUint64 / base + 1) maxUint64 s' 0 false)
    as [[v' e]|[n u]] eqn:EL.
  - intros H; injection H as <- <-.
    destruct (ParseUint_loop_early _ _ _ _ _ _ _ _ _ EL) as [-> | ->].
    + split; [exact R0 | now left].
    + split; [split; [discriminate | reflexivity] | now right].
  - destruct (u && negb (strconv.underscoreOK s)); intros H; injection H as <- <-.
    + split; [exact R0 | now left].
    + split; [|congruence]. eapply ParseUint_loop_range; [exact R0 | exact EL].
Qed.

(** No function owns the largest address. *)
Lemma FuncForPC_max (functab : list runtime.Func) :
  runtime.FuncForPC functab maxUint64 = None.
Proof.
  unfold runtime.FuncForPC. induction functab as [|f tab IH]; cbn [find].
  - reflexivity.
  - assert (H : (maxUint64 <? runtime.uintptr (runtime.end_ f)) = false).
    { apply Z.ltb_ge. unfold runtime.uintptr.
      pose proof (Z.mod_pos_bound (runtime.end_ f) two64 eq_refl).
      unfold maxUint64. lia. }
    rewrite H, andb_false_r. exact IH.
Qed.

(* ================================================================== *)
(** * Symbol: the response *)

(** The loop does for each word what the specification asks for its token. *)
Lemma lookup_word_token_line (functab : list runtime.Func) (tok : string) :
  lookup_word functab tok = token_line functab tok.
Proof.
  unfold lookup_word, token_line.
  destruct (strconv.ParseUint tok 0 64) as [pc err] eqn:EP. cbn [fst].
  destruct (ParseUint_value tok pc err EP) as [Hr He].
  assert (Hu : runtime.uintptr pc = pc)
    by (unfold runtime.uintptr; apply Z.mod_small; exact Hr).
  rewrite Hu. destruct err as [e|]; [|reflexivity].
  destruct (He ltac:(discriminate)) as [-> | ->]; [reflexivity|].
  rewrite FuncForPC_max. reflexivity.
Qed.

Lemma concat_snoc (l : list string) (d : string) :
  String.concat "" (l ++ [d])%list = String.concat "" l ++ d.
Proof.
  induction l as [|x l IH]; cbn [app String.concat]; [reflexivity|].
  destruct l as [|y l].
  - reflexivity.
  - cbn [app String.concat] in IH |- *. cbn [append] in IH |- *.
    rewrite IH, sapp_assoc. reflexivity.
Qed.

Lemma body_Write (w : ResponseWriter) (d : string) :
  body (Write w d) = body w ++ d.
Proof.
  unfold body, Write. cbn [written].
  assert (Hw : written (if wroteHeader w then w else WriteHeader w StatusOK)
               = written w).
  { unfold WriteHeader. destruct (wroteHeader w); reflexivity. }
  rewrite Hw. apply concat_snoc.
Qed.

Lemma written_Write (w : ResponseWriter) (d : string) :
  written (Write w d) = (written w ++ [d])%list.
Proof.
  unfold Write, WriteHeader. destruct (wroteHeader w); reflexivity.
Qed.

Lemma written_SetHeader (w : ResponseWriter) (k v : string) :
  written (SetHeader w k v) = written w.
Proof. reflexivity. Qed.

Lemma body_SetHeader (w : ResponseWriter) (k v : string) :
  body (SetHeader w k v) = body w.
Proof. reflexivity. Qed.

(** The loop on a list of tokens joined by the delimiter. *)
Lemma Symbol_loop_tokens (functab : list runtime.Func) (d : bool) :
  forall tokens tok fuel buf log,
    Forall (fun t => token_ok t = true) (tok :: tokens) ->
    (String.length (String.concat "+" (tok :: tokens)) < fuel)%nat ->
    exists log',
      Symbol_loop functab fuel
        (bufio.mkReader (String.concat "+" (tok :: tokens)) io_EOF d) buf log
      = Some (buf ++ String.concat "" (map (lookup_word functab) (tok :: tokens)),
              log').
Proof.
  induction tokens as [|t2 tl IH]; intros tok fuel buf log Hok Hf;
    (destruct fuel as [|fuel]; [lia|]);
    inversion Hok as [|? ? Htok Hrest]; subst;
    unfold token_ok in Htok; apply andb_prop in Htok as [Hl Hn];
    apply Nat.ltb_lt in Hn; cbn [Symbol_loop].
  - cbn [String.concat]. rewrite (ReadSlice_last tok io_EOF d Hl Hn).
    cbn [is_EOF map String.concat]. eauto.
  - change (String.concat "+" (tok :: t2 :: tl))
      with (tok ++ String "+" (String.concat "+" (t2 :: tl))) in Hf |- *.
    rewrite (ReadSlice_token tok _ io_EOF d Hl Hn).
    fold (trimmed (tok ++ "+")). rewrite trimmed_token.
    rewrite slength_app in Hf. cbn [String.length] in Hf.
    destruct (IH t2 fuel (buf ++ lookup_word functab tok)
                (log ++ [EvReadSlice (tok ++ "+") None])%list Hrest ltac:(lia))
      as [log' E].
    exists log'. rewrite E. f_equal. f_equal.
    change (map (lookup_word functab) (tok :: t2 :: tl))
      with (lookup_word functab tok :: map (lookup_word functab) (t2 :: tl)).
    cbn [map String.concat]. cbn [append]. rewrite sapp_assoc. reflexivity.
Qed.

Lemma Symbol_reader_pending_fuel (r : Request) :
  (String.length (bufio.pending (Symbol_reader r))
   < S (String.length (bufio.pending (Symbol_reader r))))%nat.
Proof. lia. Qed.

(** C10.  Every response of [Symbol] begins with the line [num_symbols: 1]:
    whatever the function table (the empty one too), the request and the
    writer, the handler returns, and what it writes, in its one [Write],
    starts with that line. *)
Theorem Symbol_num_symbols_first (functab : list runtime.Func)
    (w : ResponseWriter) (r : Request) :
  exists w' log rest,
    Symbol functab w r = Some (w', log)
    /\ written w' = (written w ++ [("num_symbols: 1" ++ LF ++ rest)%string])%list
    /\ body w' = body w ++ "num_symbols: 1" ++ LF ++ rest.
Proof.
  unfold Symbol.
  destruct (Symbol_loop_spec functab _ (Symbol_reader r) ("num_symbols: 1" ++ LF) []
              (Symbol_reader_pending_fuel r))
    as (lines & last & e & rest & E & _ & _).
  rewrite E. do 2 eexists.
  exists (String.concat "" (map (fun l => lookup_word functab (trimmed l)) lines)
          ++ lookup_word functab last ++ error_line e).
  split; [reflexivity|]. rewrite written_Write, body_Write, written_SetHeader,
    body_SetHeader, !sapp_assoc. split; reflexivity.
Qed.

(** C7, amended.  [Symbol] buffers its whole body and writes it in a single
    [Write], which comes after its last read.  It reads whole lines, each a
    word shorter than the 4096 bytes of the reader's buffer and the [+] after
    it, until a read comes with an error and a last piece without a [+]:
    - the error that ends the source (the end of the stream, or an error of
      the body): the input has then been read to its last byte;
    - or [bufio.ErrBufferFull], with a piece of 4096 bytes, when the buffer
      fills up before a [+] shows: what follows stays unread.
    The body is the marker line, what each word read looked up (the last
    piece too), and, when the error is not the end of the stream, the line
    [reading request: <error>] after the lines of the words read before. *)
Theorem Symbol_writes_once_after_reading (functab : list runtime.Func)
    (w : ResponseWriter) (r : Request) :
  exists w' lines last e rest out,
    Symbol functab w r
    = Some (w', (map read_ok lines
                 ++ [EvReadSlice last (Some e); EvWrite out])%list)
    /\ written w' = (written w ++ [out])%list
    /\ out = "num_symbols: 1" ++ LF
             ++ String.concat "" (map (fun l => lookup_word functab (trimmed l)) lines)
             ++ lookup_word functab last
             ++ (if is_EOF e then "" else "reading request: " ++ Error e ++ LF)
    /\ bufio.pending (Symbol_reader r) = String.concat "" lines ++ last ++ rest
    /\ Forall whole_line lines
    /\ lacks "+" last = true
    /\ ((e = bufio.src_err (Symbol_reader r) /\ rest = ""
         /\ ((String.length last < bufio.defaultBufSize)%nat
             \/ (String.length last = bufio.defaultBufSize
                 /\ bufio.err_with_data (Symbol_reader r) = true)))
        \/ (e = bufio_ErrBufferFull
            /\ String.length last = bufio.defaultBufSize
            /\ (rest <> "" \/ bufio.err_with_data (Symbol_reader r) = false))).
Proof.
  unfold Symbol.
  destruct (Symbol_loop_reads functab _ (Symbol_reader r) ("num_symbols: 1" ++ LF) []
              (Symbol_reader_pending_fuel r))
    as (lines & last & e & rest & E & Hp & Hw & Hl & Hx).
  rewrite E. eexists. exists lines, last, e, rest. eexists.
  split; [|split; [|split; [|split; [|split; [|split]]]]].
  - cbn [app]. rewrite <- app_assoc. reflexivity.
  - rewrite written_Write, written_SetHeader. reflexivity.
  - rewrite !sapp_assoc. reflexivity.
  - exact Hp.
  - exact Hw.
  - exact Hl.
  - exact Hx.
Qed.

(** C7 as it is written fails on a word that fills the reader's buffer: the
    one read hands out 4096 bytes with [bufio.ErrBufferFull], and the body is
    written while the six bytes after them have not been read. *)
Lemma Symbol_unread_input_counterexample :
  let r := GET (replicate 4096 "0" ++ "+12345") in
  exists w' out,
    Symbol sample_functab (newResponseWriter true) r
    = Some (w', [EvReadSlice (replicate 4096 "0") (Some bufio_ErrBufferFull);
                 EvWrite out])
    /\ written w' = [out]
    /\ bufio.pending (Symbol_reader r) = replicate 4096 "0" ++ "+12345".
Proof.
  intros r.
  destruct (Symbol sample_functab (newResponseWriter true) r) as [[w' log]|] eqn:E.
  - assert (Hlog : option_map snd (Symbol sample_functab (newResponseWriter true) r)
                   = Some [EvReadSlice (replicate 4096 "0") (Some bufio_ErrBufferFull);
                           EvWrite ("num_symbols: 1" ++ LF
                                    ++ "reading request: bufio: buffer full" ++ LF)])
      by (vm_compute; reflexivity).
    assert (Hw : option_map (fun x => written (fst x))
                   (Symbol sample_functab (newResponseWriter true) r)
                 = Some [("num_symbols: 1" ++ LF
                          ++ "reading request: bufio: buffer full" ++ LF)%string])
      by (vm_compute; reflexivity).
    rewrite E in Hlog, Hw. cbn [option_map fst snd] in Hlog, Hw.
    injection Hlog as ->. injection Hw as Hw.
    exists w'. eexists. split; [reflexivity|]. split; [exact Hw|].
    vm_compute. reflexivity.
  - exfalso. assert (Hn : Symbol sample_functab (newResponseWriter true) r <> None)
      by (vm_compute; discriminate).
    exact (Hn E).
Qed.

(** C5, amended.  For a list of tokens, each without a [+] inside and shorter
    than the 4096 bytes of the reader's buffer, joined by [+] and read to the
    end of the stream (the query string of a GET, the complete body of a
    POST, whether the body reports its end with its last bytes or after
    them), the body is the marker line followed, token by token and in order,
    by what the specification asks: one line [<hex address> <function name>]
    for a token that parses as a nonzero unsigned integer owned by a function,
    nothing for any other token, and no error line. *)
Theorem Symbol_lines_per_token (functab : list runtime.Func)
    (w : ResponseWriter) (r : Request) (tokens : list string)
    (with_data : bool) :
  Forall (fun t => token_ok t = true) tokens ->
  Symbol_reader r = bufio.mkReader (String.concat "+" tokens) io_EOF with_data ->
  exists w' log,
    Symbol functab w r = Some (w', log)
    /\ body w' = body w ++ "num_symbols: 1" ++ LF
                 ++ String.concat "" (map (token_line functab) tokens).
Proof.
  intros Hok Hr. unfold Symbol. rewrite Hr. cbn [bufio.pending].
  assert (Hm : map (lookup_word functab) tokens = map (token_line functab) tokens)
    by (apply map_ext; intros; apply lookup_word_token_line).
  destruct tokens as [|tok tokens].
  - destruct (Symbol_loop_tokens functab with_data [] "" (S (String.length ""))
                ("num_symbols: 1" ++ LF) [] ltac:(repeat constructor) ltac:(simpl; lia))
      as [log' E].
    cbn [String.concat] in E |- *. rewrite E. do 2 eexists.
    split; [reflexivity|]. rewrite body_Write, body_SetHeader. reflexivity.
  - destruct (Symbol_loop_tokens functab with_data tokens tok
                (S (String.length (String.concat "+" (tok :: tokens))))
                ("num_symbols: 1" ++ LF) [] Hok ltac:(lia))
      as [log' E].
    rewrite E. do 2 eexists. split; [reflexivity|].
    rewrite body_Write, body_SetHeader, Hm, !sapp_assoc. reflexivity.
Qed.

Lemma Symbol_lines_per_token_witness :
  let tokens := ["12345"; "0"; "badtoken"; "67890"] in
  let r := GET "12345+0+badtoken+67890" in
  Forall (fun t => token_ok t = true) tokens
  /\ Symbol_reader r = bufio.mkReader (String.concat "+" tokens) io_EOF false
  /\ exists w' log,
       Symbol sample_functab (newResponseWriter true) r = Some (w', log)
       /\ body w' = body (newResponseWriter true) ++ "num_symbols: 1" ++ LF
                    ++ String.concat "" (map (token_line sample_functab) tokens).
Proof.
  intros tokens r.
  assert (Hok : Forall (fun t => token_ok t = true) tokens)
    by (repeat constructor).
  assert (Hr : Symbol_reader r
               = bufio.mkReader (String.concat "+" tokens) io_EOF false)
    by reflexivity.
  split; [exact Hok|]. split; [exact Hr|].
  exact (Symbol_lines_per_token sample_functab (newResponseWriter true) r tokens
           false Hok Hr).
Defined.

(** C5 as it is written fails on a token that fills the reader's buffer: the
    reading stops there with [bufio.ErrBufferFull], the token [12345] that
    follows, which [main.main] owns, gets no line, and an error line is
    written. *)
Lemma Symbol_long_token_counterexample :
  let tokens := [replicate 4096 "0"; "12345"] in
  let r := GET (String.concat "+" tokens) in
  token_line sample_functab "12345" = "0x3039 main.main" ++ LF
  /\ exists w' log,
       Symbol sample_functab (newResponseWriter true) r = Some (w', log)
       /\ body w' = "num_symbols: 1" ++ LF
                    ++ "reading request: bufio: buffer full" ++ LF
       /\ body w' <> "num_symbols: 1" ++ LF
                     ++ String.concat "" (map (token_line sample_functab) tokens).
Proof.
  intros tokens r. split; [vm_compute; reflexivity|].
  destruct (Symbol sample_functab (newResponseWriter true) r) as [[w' log]|] eqn:E.
  - exists w', log. split; [reflexivity|].
    assert (Hb : option_map (fun x => body (fst x))
                   (Symbol sample_functab (newResponseWriter true) r)
                 = Some ("num_symbols: 1" ++ LF
                         ++ "reading request: bufio: buffer full" ++ LF))
      by (vm_compute; reflexivity).
    rewrite E in Hb. cbn [option_map fst] in Hb. injection Hb as Hb.
    split; [exact Hb|]. rewrite Hb. vm_compute. discriminate.
  - exfalso. assert (Hn : Symbol sample_functab (newResponseWriter true) r <> None)
      by (vm_compute; discriminate).
    exact (Hn E).
Qed.

(* ================================================================== *)
(** * Profile and Trace, run alone *)

Lemma failed_response (w : ResponseWriter) (prefix : string) (e : error) :
  wroteHeader w = false ->
  status (failed w prefix e) = 500
  /\ Header_Get (sentHeader (failed w prefix e)) "Content-Type" = text_plain
  /\ written (failed w prefix e) = (written w ++ [(prefix ++ Error e ++ LF)%string])%list.
Proof.
  intros H. unfold failed, Fprintf_err, Write, WriteHeader, SetHeader.
  cbn [wroteHeader status sentHeader written header]. rewrite H.
  cbn [wroteHeader status sentHeader written header].
  repeat split.
Qed.

Section Runs.

Variable Prof : Type.
Variable profile_Parse : string -> Prof + error.
Variable report_Generate : Prof -> report_Options -> string.
Variable atof64 : string -> float * option strconv.NumError.

Local Abbreviation Profile := (Profile Prof profile_Parse report_Generate).
Local Abbreviation Trace := (Trace Prof atof64).
Local Abbreviation Env := (Env Prof).

Lemma run_Profile_busy (env : Env) w r s log :
  sampler.cpu_profiling s = true ->
  run env (Profile w r) s log
  = (failed w "Could not enable CPU profiling: " sampler.cpu_in_use, s,
     (log ++ [EvStartCPUProfile (Some sampler.cpu_in_use)])%list).
Proof.
  intros H. unfold Profile. cbn [run]. unfold sampler.StartCPUProfile.
  rewrite H. reflexivity.
Qed.

Lemma run_Profile_binary (env : Env) w r s log :
  sampler.cpu_profiling s = false ->
  is_binary r = true ->
  run env (Profile w r) s log
  = (Write (SetHeader (SetHeader w "Content-Type" text_plain)
              "Content-Type" octet_stream) (cpu_samples env),
     stopped_cpu s, (log ++ cpu_capture env w r)%list).
Proof.
  intros H Hb. unfold Profile, is_binary in *. cbn [run sleep].
  unfold sampler.StartCPUProfile. rewrite H. cbn [run sleep sampler.cpu_profiling].
  rewrite Hb. cbn [run]. unfold sampler.StopCPUProfile. cbn [sampler.cpu_profiling sampler.tracing].
  rewrite <- !app_assoc. reflexivity.
Qed.

Lemma run_Profile_unparsed (env : Env) w r s log e :
  sampler.cpu_profiling s = false ->
  is_binary r = false ->
  profile_Parse (cpu_samples env) = inr e ->
  run env (Profile w r) s log
  = (failed w "Failed to parse profile: " e,
     stopped_cpu s, (log ++ cpu_capture env w r)%list).
Proof.
  intros H Hb Hp. unfold Profile, is_binary in *. cbn [run sleep].
  unfold sampler.StartCPUProfile. rewrite H. cbn [run sleep sampler.cpu_profiling].
  rewrite Hb, Hp. cbn [run]. unfold sampler.StopCPUProfile. cbn [sampler.cpu_profiling sampler.tracing].
  rewrite <- !app_assoc. reflexivity.
Qed.

Lemma run_Profile_text (env : Env) w r s log prof err prof' :
  sampler.cpu_profiling s = false ->
  is_binary r = false ->
  profile_Parse (cpu_samples env) = inl prof ->
  symbolz_Symbolize env (symbol_url r) prof = (err, prof') ->
  run env (Profile w r) s log
  = (Write
       match err with
       | Some e => failed w "Failed to symbolize profile: " e
       | None => SetHeader w "Content-Type" text_plain
       end
       (report_Generate prof' (mkOptions report_Text (is_cum r) true)),
     stopped_cpu s,
     (log ++ cpu_capture env w r ++ [EvSymbolize (symbol_url r)])%list).
Proof.
  intros H Hb Hp Hs. unfold Profile, is_binary, symbol_url in *. cbn [run sleep].
  unfold sampler.StartCPUProfile. rewrite H. cbn [run sleep sampler.cpu_profiling].
  rewrite Hb, Hp. cbn [run]. rewrite Hs. cbn [run].
  unfold sampler.StopCPUProfile. cbn [sampler.cpu_profiling sampler.tracing].
  rewrite <- !app_assoc. destruct err; reflexivity.
Qed.

Lemma run_Trace_busy (env : Env) w r s log :
  sampler.tracing s = true ->
  run env (Trace w r) s log
  = (failed (SetHeader w "Content-Type" octet_stream)
       "Could not enable tracing: " sampler.trace_in_use, s,
     (log ++ [EvTraceStart (Some sampler.trace_in_use)])%list).
Proof.
  intros H. unfold Trace. cbn [run]. unfold sampler.TraceStart.
  rewrite H. reflexivity.
Qed.

Lemma run_Trace_idle (env : Env) w r s log :
  sampler.tracing s = false ->
  run env (Trace w r) s log
  = (fold_left Write (trace_chunks env)
       (SetHeader w "Content-Type" octet_stream),
     sampler.mkSampler (sampler.cpu_profiling s) false,
     (log ++ trace_capture atof64 env w r)%list).
Proof.
  intros H. unfold Trace. cbn [run sleep]. unfold sampler.TraceStart.
  rewrite H. cbn [run sleep sampler.tracing]. unfold sampler.TraceStop.
  cbn [sampler.cpu_profiling sampler.tracing]. rewrite <- !app_assoc. reflexivity.
Qed.

End Runs.

(* ================================================================== *)
(** * Profile and Trace: the properties *)

Section Properties.

Variable Prof : Type.
Variable profile_Parse : string -> Prof + error.
Variable report_Generate : Prof -> report_Options -> string.
Variable atof64 : string -> float * option strconv.NumError.

Local Abbreviation Profile := (Profile Prof profile_Parse report_Generate).
Local Abbreviation Trace := (Trace Prof atof64).
Local Abbreviation Env := (Env Prof).

(** C3.  When the capture cannot start, because the sampler is taken, the
    handler answers 500 with the error message and returns: its only event is
    the failed start, so it neither waits nor stops, and the sampler is as it
    was.  This holds for [Profile] and for [Trace]. *)
Theorem start_failure_returns_500 (env : Env) (w : ResponseWriter)
    (r : Request) (s s' : sampler.Sampler) :
  wroteHeader w = false ->
  sampler.cpu_profiling s = true ->
  sampler.tracing s' = true ->
  (exists w1,
     run env (Profile w r) s []
     = (w1, s, [EvStartCPUProfile (Some sampler.cpu_in_use)])
     /\ status w1 = StatusInternalServerError
     /\ written w1
        = (written w
           ++ [("Could not enable CPU profiling: cpu profiling already in use" ++ LF)%string])%list)
  /\ (exists w2,
        run env (Trace w r) s' []
        = (w2, s', [EvTraceStart (Some sampler.trace_in_use)])
        /\ status w2 = StatusInternalServerError
        /\ Header_Get (sentHeader w2) "Content-Type" = "text/plain; charset=utf-8"
        /\ written w2
           = (written w
              ++ [("Could not enable tracing: tracing is already enabled" ++ LF)%string])%list).
Proof.
  intros Hw Hs Hs'. split.
  - rewrite (run_Profile_busy _ _ _ env w r s [] Hs). eexists.
    split; [reflexivity|].
    destruct (failed_response w "Could not enable CPU profiling: "
                sampler.cpu_in_use Hw) as (H1 & _ & H3).
    split; [exact H1 | exact H3].
  - rewrite (run_Trace_busy _ _ env w r s' [] Hs'). eexists.
    split; [reflexivity|].
    destruct (failed_response (SetHeader w "Content-Type" octet_stream)
                "Could not enable tracing: " sampler.trace_in_use Hw)
      as (H1 & H2 & H3).
    split; [exact H1 | split; [exact H2 | exact H3]].
Qed.

(** C4.  When the capture starts, the handler waits once and then stops the
    capture once, however the wait ends: the events are the start, the wait
    and the stop, in this order, followed at most by the call to the symbol
    server, and the sampler is not capturing when the handler returns. *)
Theorem stop_once_after_wait (env : Env) (w : ResponseWriter) (r : Request)
    (s s' : sampler.Sampler) :
  sampler.cpu_profiling s = false ->
  sampler.tracing s' = false ->
  (exists w1 s1 rest,
     run env (Profile w r) s []
     = (w1, s1,
        (EvStartCPUProfile None
         :: EvSleep (Profile_duration r) (wake_of env (closeNotifier w))
         :: EvStopCPUProfile :: rest)%list)
     /\ (rest = [] \/ rest = [EvSymbolize (symbol_url r)])
     /\ sampler.cpu_profiling s1 = false
     /\ sampler.tracing s1 = sampler.tracing s)
  /\ (exists w2 s2,
        run env (Trace w r) s' []
        = (w2, s2,
           [ EvTraceStart None;
             EvSleep (Trace_duration atof64 r) (wake_of env (closeNotifier w));
             EvTraceStop ])
        /\ sampler.tracing s2 = false
        /\ sampler.cpu_profiling s2 = sampler.cpu_profiling s').
Proof.
  intros Hs Hs'. split.
  - destruct (is_binary r) eqn:Hb.
    + rewrite (run_Profile_binary _ _ _ env w r s [] Hs Hb).
      do 2 eexists. exists []. repeat split. now left.
    + destruct (profile_Parse (cpu_samples env)) as [prof|e] eqn:Hp.
      * destruct (symbolz_Symbolize env (symbol_url r) prof) as [err prof'] eqn:Hy.
        rewrite (run_Profile_text _ _ _ env w r s [] prof err prof' Hs Hb Hp Hy).
        do 2 eexists. exists [EvSymbolize (symbol_url r)]. repeat split. now right.
      * rewrite (run_Profile_unparsed _ _ _ env w r s [] e Hs Hb Hp).
        do 2 eexists. exists []. repeat split. now left.
  - rewrite (run_Trace_idle _ _ env w r s' [] Hs'). do 2 eexists. repeat split.
Qed.

(** C6.  When the bytes captured do not parse, a text [Profile] request is
    answered 500 with the diagnostic line and nothing else: the symbol server
    is not called and no report is written. *)
Theorem parse_failure_returns_500 (env : Env) (w : ResponseWriter)
    (r : Request) (s : sampler.Sampler) (e : error) :
  wroteHeader w = false ->
  sampler.cpu_profiling s = false ->
  is_binary r = false ->
  profile_Parse (cpu_samples env) = inr e ->
  exists w1 s1,
    run env (Profile w r) s []
    = (w1, s1,
       [ EvStartCPUProfile None;
         EvSleep (Profile_duration r) (wake_of env (closeNotifier w));
         EvStopCPUProfile ])
    /\ status w1 = StatusInternalServerError
    /\ written w1
       = (written w ++ [("Failed to parse profile: " ++ Error e ++ LF)%string])%list.
Proof.
  intros Hw Hs Hb Hp.
  rewrite (run_Profile_unparsed _ _ _ env w r s [] e Hs Hb Hp).
  do 2 eexists. split; [reflexivity|].
  destruct (failed_response w "Failed to parse profile: " e Hw) as (H1 & _ & H3).
  split; [exact H1 | exact H3].
Qed.

(** C1, amended.  When the symbol server fails on a text [Profile] request,
    the handler goes on: it sends status 500, writes the line
    [Failed to symbolize profile: <error>], and then writes the report
    generated from the profile as the symbolization left it. *)
Theorem symbolization_failure_continues (env : Env) (w : ResponseWriter)
    (r : Request) (s : sampler.Sampler) (prof prof' : Prof) (e : error) :
  wroteHeader w = false ->
  sampler.cpu_profiling s = false ->
  is_binary r = false ->
  profile_Parse (cpu_samples env) = inl prof ->
  symbolz_Symbolize env (symbol_url r) prof = (Some e, prof') ->
  exists w1 s1,
    run env (Profile w r) s []
    = (w1, s1,
       [ EvStartCPUProfile None;
         EvSleep (Profile_duration r) (wake_of env (closeNotifier w));
         EvStopCPUProfile;
         EvSymbolize (symbol_url r) ])
    /\ status w1 = StatusInternalServerError
    /\ written w1
       = (written w
          ++ [("Failed to symbolize profile: " ++ Error e ++ LF)%string;
              report_Generate prof' (mkOptions report_Text (is_cum r) true)])%list.
Proof.
  intros Hw Hs Hb Hp Hy.
  rewrite (run_Profile_text _ _ _ env w r s [] prof (Some e) prof' Hs Hb Hp Hy).
  do 2 eexists. split; [reflexivity|].
  destruct (failed_response w "Failed to symbolize profile: " e Hw) as (H1 & _ & H3).
  unfold Write. unfold failed, Fprintf_err, Write, WriteHeader, SetHeader in *.
  cbn [wroteHeader status sentHeader written header] in *. rewrite Hw in *.
  cbn [wroteHeader status sentHeader written header] in *.
  split; [reflexivity|]. rewrite <- app_assoc. reflexivity.
Qed.

(** When the symbol server answers without an error, whatever it resolved,
    the response is the report alone, with status 200. *)
Lemma symbolization_success_returns_200 (env : Env) (w : ResponseWriter)
    (r : Request) (s : sampler.Sampler) (prof prof' : Prof) :
  wroteHeader w = false ->
  sampler.cpu_profiling s = false ->
  is_binary r = false ->
  profile_Parse (cpu_samples env) = inl prof ->
  symbolz_Symbolize env (symbol_url r) prof = (None, prof') ->
  exists w1 s1 log,
    run env (Profile w r) s [] = (w1, s1, log)
    /\ status w1 = StatusOK
    /\ written w1
       = (written w
          ++ [report_Generate prof' (mkOptions report_Text (is_cum r) true)])%list.
Proof.
  intros Hw Hs Hb Hp Hy.
  rewrite (run_Profile_text _ _ _ env w r s [] prof None prof' Hs Hb Hp Hy).
  do 3 eexists. split; [reflexivity|].
  unfold Write, WriteHeader, SetHeader.
  cbn [wroteHeader status sentHeader written header]. rewrite Hw.
  cbn [wroteHeader status sentHeader written header]. split; reflexivity.
Qed.

End Properties.

Lemma start_failure_returns_500_witness :
  let w := newResponseWriter true in
  let r := request [("seconds", "5")] in
  wroteHeader w = false
  /\ sampler.cpu_profiling busy_cpu = true
  /\ sampler.tracing busy_trace = true
  /\ (exists w1,
        run env_resolved (Profile string sample_Parse sample_Generate w r) busy_cpu []
        = (w1, busy_cpu, [EvStartCPUProfile (Some sampler.cpu_in_use)])
        /\ status w1 = StatusInternalServerError
        /\ written w1
           = (written w
              ++ [("Could not enable CPU profiling: cpu profiling already in use" ++ LF)%string])%list)
  /\ (exists w2,
        run env_resolved (Trace string sample_atof64 w r) busy_trace []
        = (w2, busy_trace, [EvTraceStart (Some sampler.trace_in_use)])
        /\ status w2 = StatusInternalServerError
        /\ Header_Get (sentHeader w2) "Content-Type" = "text/plain; charset=utf-8"
        /\ written w2
           = (written w
              ++ [("Could not enable tracing: tracing is already enabled" ++ LF)%string])%list).
Proof.
  intros w r.
  split; [reflexivity|]. split; [reflexivity|]. split; [reflexivity|].
  exact (start_failure_returns_500 string sample_Parse sample_Generate
           sample_atof64 env_resolved w r busy_cpu busy_trace
           eq_refl eq_refl eq_refl).
Defined.

Lemma stop_once_after_wait_witness :
  let w := newResponseWriter true in
  let r := request [("seconds", "5")] in
  sampler.cpu_profiling sampler.idle = false
  /\ sampler.tracing sampler.idle = false
  /\ (exists w1 s1 rest,
        run env_unresolved (Profile string sample_Parse sample_Generate w r)
          sampler.idle []
        = (w1, s1,
           (EvStartCPUProfile None
            :: EvSleep (Profile_duration r) (wake_of env_unresolved (closeNotifier w))
            :: EvStopCPUProfile :: rest)%list)
        /\ (rest = [] \/ rest = [EvSymbolize (symbol_url r)])
        /\ sampler.cpu_profiling s1 = false
        /\ sampler.tracing s1 = sampler.tracing sampler.idle)
  /\ (exists w2 s2,
        run env_unresolved (Trace string sample_atof64 w r) sampler.idle []
        = (w2, s2,
           [ EvTraceStart None;
             EvSleep (Trace_duration sample_atof64 r)
               (wake_of env_unresolved (closeNotifier w));
             EvTraceStop ])
        /\ sampler.tracing s2 = false
        /\ sampler.cpu_profiling s2 = sampler.cpu_profiling sampler.idle).
Proof.
  intros w r. split; [reflexivity|]. split; [reflexivity|].
  exact (stop_once_after_wait string sample_Parse sample_Generate sample_atof64
           env_unresolved w r sampler.idle sampler.idle eq_refl eq_refl).
Defined.

Lemma parse_failure_returns_500_witness :
  let w := newResponseWriter true in
  let r := request [("seconds", "5")] in
  let e := errorString "unrecognized profile format" in
  wroteHeader w = false
  /\ sampler.cpu_profiling sampler.idle = false
  /\ is_binary r = false
  /\ sample_Parse (cpu_samples env_garbage) = inr e
  /\ exists w1 s1,
       run env_garbage (Profile string sample_Parse sample_Generate w r)
         sampler.idle []
       = (w1, s1,
          [ EvStartCPUProfile None;
            EvSleep (Profile_duration r) (wake_of env_garbage (closeNotifier w));
            EvStopCPUProfile ])
       /\ status w1 = StatusInternalServerError
       /\ written w1
          = (written w ++ [("Failed to parse profile: " ++ Error e ++ LF)%string])%list.
Proof.
  intros w r e.
  split; [reflexivity|]. split; [reflexivity|]. split; [reflexivity|].
  split; [reflexivity|].
  exact (parse_failure_returns_500 string sample_Parse sample_Generate
           env_garbage w r sampler.idle e eq_refl eq_refl eq_refl eq_refl).
Defined.

Lemma symbolization_failure_continues_witness :
  let w := newResponseWriter true in
  let r := request [("seconds", "5")] in
  let e := errorString "connection refused" in
  wroteHeader w = false
  /\ sampler.cpu_profiling sampler.idle = false
  /\ is_binary r = false
  /\ sample_Parse (cpu_samples env_unresolved) = inl "samples"
  /\ symbolz_Symbolize env_unresolved (symbol_url r) "samples" = (Some e, "samples")
  /\ exists w1 s1,
       run env_unresolved (Profile string sample_Parse sample_Generate w r)
         sampler.idle []
       = (w1, s1,
          [ EvStartCPUProfile None;
            EvSleep (Profile_duration r) (wake_of env_unresolved (closeNotifier w));
            EvStopCPUProfile;
            EvSymbolize (symbol_url r) ])
       /\ status w1 = StatusInternalServerError
       /\ written w1
          = (written w
             ++ [("Failed to symbolize profile: " ++ Error e ++ LF)%string;
                 sample_Generate "samples" (mkOptions report_Text (is_cum r) true)])%list.
Proof.
  intros w r e.
  split; [reflexivity|]. split; [reflexivity|]. split; [reflexivity|].
  split; [reflexivity|]. split; [reflexivity|].
  exact (symbolization_failure_continues string sample_Parse sample_Generate
           env_unresolved w r sampler.idle "samples" "samples" e
           eq_refl eq_refl eq_refl eq_refl eq_refl).
Defined.

(** C1 as it is written fails: when the symbol server fails, the response
    carries status 500, not 200. *)
Lemma symbolization_failure_status_counterexample :
  let w := newResponseWriter true in
  let r := request [("seconds", "5")] in
  let w1 := fst (fst (run env_unresolved
                        (Profile string sample_Parse sample_Generate w r)
                        sampler.idle [])) in
  symbolz_Symbolize env_unresolved (symbol_url r) "samples"
  = (Some (errorString "connection refused"), "samples")
  /\ status w1 = 500
  /\ status w1 <> StatusOK
  /\ body w1 = "Failed to symbolize profile: connection refused" ++ LF
               ++ "report of samples by flat" ++ LF.
Proof.
  intros w r w1. split; [reflexivity|]. split; [vm_compute; reflexivity|].
  split; [vm_compute; discriminate | vm_compute; reflexivity].
Qed.

(* ================================================================== *)
(** * The seconds parameter *)


Section Seconds.

Variable Prof : Type.
Variable profile_Parse : string -> Prof + error.
Variable report_Generate : Prof -> report_Options -> string.
Variable atof64 : string -> float * option strconv.NumError.

Local Abbreviation Profile := (Profile Prof profile_Parse report_Generate).
Local Abbreviation Trace := (Trace Prof atof64).
Local Abbreviation ParseFloat := (ParseFloat atof64).




End Seconds.



(* ================================================================== *)
(** * Cmdline *)

Lemma doPrintf0_plain (s : string) :
  forall fuel, lacks "%" s = true -> (String.length s <= fuel)%nat ->
    fmt.doPrintf0 fuel s = Some s.
Proof.
  induction s as [|ch s IH]; intros fuel Hl Hf.
  - destruct fuel; reflexivity.
  - destruct fuel as [|fuel]; [simpl in Hf; lia|].
    cbn [lacks] in Hl. apply andb_prop in Hl as [Hc Hl].
    cbn [fmt.doPrintf0]. destruct (Ascii.eqb ch "%"); [discriminate|].
    rewrite IH; [reflexivity | exact Hl | simpl in Hf; lia].
Qed.

(** When no argument holds a [%], the body is the arguments joined by NUL
    bytes. *)
Lemma Cmdline_plain (os_Args : list string) (w : ResponseWriter) :
  lacks "%" (String.concat NUL os_Args) = true ->
  exists w',
    Cmdline os_Args w = Some w'
    /\ body w' = body w ++ String.concat NUL os_Args
    /\ Header_Get (header w') "Content-Type" = "text/plain; charset=utf-8".
Proof.
  intros H. unfold Cmdline, fmt.Sprintf0.
  rewrite (doPrintf0_plain _ _ H (le_n _)). eexists. split; [reflexivity|].
  rewrite body_Write, body_SetHeader. split; [reflexivity|].
  unfold Write, WriteHeader, SetHeader. destruct (wroteHeader w); reflexivity.
Qed.

(** C8 fails on the code: [Cmdline] passes the joined arguments to
    [fmt.Fprintf] as the format, so an argument that holds a [%] is not
    copied: for the arguments [app] and [-load=100%] the body ends in
    [%!(NOVERB)] and is not the arguments joined by NUL bytes. *)
Theorem Cmdline_percent_argument :
  let os_Args := ["app"; "-load=100%"] in
  exists w',
    Cmdline os_Args (newResponseWriter true) = Some w'
    /\ body w' = "app" ++ NUL ++ "-load=100%!(NOVERB)"
    /\ body w' <> String.concat NUL os_Args.
Proof.
  intros os_Args. eexists. split; [vm_compute; reflexivity|].
  split; [vm_compute; reflexivity | vm_compute; discriminate].
Qed.

(* ================================================================== *)
(** * Two Profile requests served at once *)

Section Race.

Variable Prof : Type.
Variable profile_Parse : string -> Prof + error.
Variable report_Generate : Prof -> report_Options -> string.

Local Abbreviation Profile := (Profile Prof profile_Parse report_Generate).
Local Abbreviation Env := (Env Prof).
Local Abbreviation Prog := (Prog Prof ResponseWriter).
Local Abbreviation tstate := (tstate Prof profile_Parse report_Generate).

(** The shape of [Profile]: a start; on an error, the return; otherwise the
    wait, the stop, and a quiet rest. *)
Lemma Profile_shape (w : ResponseWriter) (r : Request) :
  exists k,
    Profile w r = StartCPUProfile k
    /\ (forall e, k (Some e) = Ret (failed w "Could not enable CPU profiling: " e))
    /\ exists k',
         k None = Sleep (closeNotifier w) (Profile_duration r) (StopCPUProfile k')
         /\ forall buf, quiet (k' buf).
Proof.
  unfold Profile. eexists. split; [reflexivity|]. split; [reflexivity|].
  eexists. split; [reflexivity|]. intros buf. cbv beta.
  destruct (fst (strconv.ParseBool (FormValue r "binary"))).
  - left. eexists. reflexivity.
  - destruct (profile_Parse buf) as [prof|e].
    + right. do 3 eexists. split; [reflexivity|].
      intros [err prof']. eexists. reflexivity.
    + left. eexists. reflexivity.
Qed.

(** One call of a goroutine keeps it on its path, and keeps the sampler in
    step with the two logs; [co] says whether the other goroutine is
    capturing. *)
Lemma thread_step (env : Env) w r log p s co :
  tstate w r log p ->
  sampler.cpu_profiling s = capturing log || co ->
  capturing log && co = false ->
  match step env s p with
  | None => returned p = true
  | Some (s', p', ev) =>
    tstate w r (log ++ [ev]) p'
    /\ sampler.cpu_profiling s' = capturing (log ++ [ev]) || co
    /\ capturing (log ++ [ev]) && co = false
    /\ (log = [] -> co = true ->
        ev = EvStartCPUProfile (Some sampler.cpu_in_use)
        /\ p' = Ret (cpu_failed w) /\ s' = s)
  end.
Proof.
  intros T Hs Hx. destruct T.
  - destruct (Profile_shape w r) as (k & -> & Hf & k' & Hk & Hq).
    cbn [step]. unfold sampler.StartCPUProfile.
    cbn [capturing existsb andb orb] in Hs. rewrite Hs. destruct co.
    + rewrite Hf. cbn [app]. split; [apply ts_failed|].
      split; [exact Hs|]. split; [reflexivity|]. intros _ _. repeat split.
    + rewrite Hk. cbn [app]. split; [now apply ts_wait|].
      split; [reflexivity|]. split; [reflexivity|]. intros _ H; discriminate H.
  - reflexivity.
  - cbn [step app]. split; [now apply ts_stop|].
    split; [exact Hs|]. split; [exact Hx|]. intros H0; discriminate H0.
  - cbn [step app]. cbn in Hs, Hx. subst co.
    unfold sampler.StopCPUProfile. rewrite Hs. cbn [sampler.cpu_profiling].
    split; [apply ts_quiet; apply H|].
    split; [reflexivity|]. split; [reflexivity|]. intros H0; discriminate H0.
  - destruct H as [[a ->]|(u & prof & k & -> & Hk)].
    + reflexivity.
    + cbn [step app]. destruct (Hk (symbolz_Symbolize env u prof)) as [a ->].
      split; [apply ts_done|].
      split; [exact Hs|]. split; [exact Hx|]. intros H0; discriminate H0.
  - reflexivity.
Qed.

Lemma tstate_starts_le1 w r log p :
  tstate w r log p -> (starts_ok log <= 1)%nat.
Proof. intros T; destruct T; cbn; lia. Qed.

Lemma tstate_returned w r log p :
  tstate w r log p -> returned p = true -> capturing log = false.
Proof.
  intros T; destruct T; intros Hr; try reflexivity; discriminate Hr.
Qed.

Lemma tstate_nil w r p : tstate w r [] p -> p = Profile w r.
Proof. intros T. inversion T. reflexivity. Qed.

Variables env1 env2 : Env.
Variables w1 w2 : ResponseWriter.
Variables r1 r2 : Request.

Local Abbreviation race_init :=
  (race_init Prof profile_Parse report_Generate w1 w2 r1 r2).
Local Abbreviation pool_inv :=
  (pool_inv Prof profile_Parse report_Generate w1 w2 r1 r2).

Lemma pool_inv_init : pool_inv race_init.
Proof. repeat split; constructor. Qed.

Lemma pool_inv_step (t : bool) (c : Pool Prof) :
  pool_inv c -> pool_inv (sched_step env1 env2 t c).
Proof.
  intros (T1 & T2 & Hs & Hx). destruct t; unfold sched_step.
  - pose proof (thread_step env1 w1 r1 _ _ _ _ T1 Hs Hx) as H.
    destruct (step env1 (shared c) (thread1 c)) as [[[s' p'] ev]|].
    + destruct H as (T & Hs' & Hx' & _). repeat split; assumption.
    + repeat split; assumption.
  - rewrite orb_comm in Hs. rewrite andb_comm in Hx.
    pose proof (thread_step env2 w2 r2 _ _ _ _ T2 Hs Hx) as H.
    destruct (step env2 (shared c) (thread2 c)) as [[[s' p'] ev]|].
    + destruct H as (T & Hs' & Hx' & _).
      rewrite orb_comm in Hs'. rewrite andb_comm in Hx'.
      repeat split; assumption.
    + rewrite orb_comm in Hs. rewrite andb_comm in Hx.
      repeat split; assumption.
Qed.

Lemma pool_inv_run (sched : list bool) :
  forall c, pool_inv c -> pool_inv (run_schedule env1 env2 sched c).
Proof.
  induction sched as [|t sched IH]; intros c H; [exact H|].
  apply IH, pool_inv_step, H.
Qed.

(** The logs only grow. *)
Lemma sched_step_log_ext (t t' : bool) (c : Pool Prof) :
  exists ext, log_of t' (sched_step env1 env2 t c) = (log_of t' c ++ ext)%list.
Proof.
  destruct t; unfold sched_step.
  - destruct (step env1 (shared c) (thread1 c)) as [[[s' p'] ev]|].
    + destruct t'; cbn; [now exists [ev] | exists []; now rewrite app_nil_r].
    + exists []. now rewrite app_nil_r.
  - destruct (step env2 (shared c) (thread2 c)) as [[[s' p'] ev]|].
    + destruct t'; cbn; [exists []; now rewrite app_nil_r | now exists [ev]].
    + exists []. now rewrite app_nil_r.
Qed.

Lemma run_schedule_log_ext (t' : bool) (sched : list bool) :
  forall c, exists ext,
    log_of t' (run_schedule env1 env2 sched c) = (log_of t' c ++ ext)%list.
Proof.
  induction sched as [|t sched IH]; intros c.
  - exists []. now rewrite app_nil_r.
  - destruct (IH (sched_step env1 env2 t c)) as [e2 H2].
    destruct (sched_step_log_ext t t' c) as [e1 H1].
    exists (e1 ++ e2)%list. cbn [run_schedule fold_left] in *.
    unfold run_schedule in H2. rewrite H2, H1, app_assoc. reflexivity.
Qed.

(** A handler that has returned makes no more events. *)
Lemma returned_stays (t' : bool) (sched : list bool) :
  forall c, returned (thread_of t' c) = true ->
    log_of t' (run_schedule env1 env2 sched c) = log_of t' c
    /\ thread_of t' (run_schedule env1 env2 sched c) = thread_of t' c.
Proof.
  induction sched as [|t sched IH]; intros c H; [now split|].
  assert (E : log_of t' (sched_step env1 env2 t c) = log_of t' c
              /\ thread_of t' (sched_step env1 env2 t c) = thread_of t' c).
  { destruct t, t'; unfold sched_step; cbn [thread_of] in H.
    - destruct (thread1 c); try discriminate. now split.
    - destruct (step env1 (shared c) (thread1 c)) as [[[s' p'] ev]|]; now split.
    - destruct (step env2 (shared c) (thread2 c)) as [[[s' p'] ev]|]; now split.
    - destruct (thread2 c); try discriminate. now split. }
  destruct E as [E1 E2].
  destruct (IH (sched_step env1 env2 t c)) as [I1 I2]; [now rewrite E2|].
  cbn [run_schedule fold_left]. unfold run_schedule in I1, I2.
  split; [now rewrite I1 | now rewrite I2].
Qed.

Lemma starts_ok_app (l1 l2 : list Event) :
  starts_ok (l1 ++ l2) = (starts_ok l1 + starts_ok l2)%nat.
Proof. unfold starts_ok. now rewrite filter_app, length_app. Qed.

Lemma capturing_starts (log : list Event) :
  capturing log = true -> (1 <= starts_ok log)%nat.
Proof.
  unfold capturing, starts_ok. intros H. apply andb_prop in H as [H _].
  induction log as [|ev log IH]; cbn in *; [discriminate|].
  destruct (is_start_ok ev); cbn; [lia | now apply IH].
Qed.

Lemma pool_inv_thread (c : Pool Prof) (t : bool) :
  pool_inv c ->
  tstate (if t then w1 else w2) (if t then r1 else r2) (log_of t c) (thread_of t c)
  /\ sampler.cpu_profiling (shared c)
     = capturing (log_of t c) || capturing (log_of (negb t) c)
  /\ capturing (log_of t c) && capturing (log_of (negb t) c) = false.
Proof.
  intros (T1 & T2 & Hs & Hx). destruct t; cbn [log_of thread_of negb].
  - repeat split; assumption.
  - rewrite orb_comm, andb_comm. repeat split; assumption.
Qed.

Lemma sched_step_of (t : bool) (c : Pool Prof) :
  match step (if t then env1 else env2) (shared c) (thread_of t c) with
  | Some (s', p', ev) =>
    shared (sched_step env1 env2 t c) = s'
    /\ thread_of t (sched_step env1 env2 t c) = p'
    /\ log_of t (sched_step env1 env2 t c) = (log_of t c ++ [ev])%list
    /\ thread_of (negb t) (sched_step env1 env2 t c) = thread_of (negb t) c
    /\ log_of (negb t) (sched_step env1 env2 t c) = log_of (negb t) c
  | None => sched_step env1 env2 t c = c
  end.
Proof.
  destruct t; unfold sched_step; cbn [thread_of].
  - destruct (step env1 (shared c) (thread1 c)) as [[[s' p'] ev]|];
      [repeat split | reflexivity].
  - destruct (step env2 (shared c) (thread2 c)) as [[[s' p'] ev]|];
      [repeat split | reflexivity].
Qed.

(** C9, amended.  Two [Profile] requests are served at once, from an idle
    sampler, under any schedule.  When one handler comes to its start while
    the other is capturing (it has started the profile and not yet stopped
    it), its
    start fails with the error of a profile already in use; the handler
    returns in that very step, with status 500 and the error message, without
    waiting; the sampler and the other handler are untouched.  From then on,
    whatever the schedule, exactly one start has succeeded, the two handlers
    are never capturing together, and the sampler is idle again once both
    have returned. *)
Theorem concurrent_profile_race (sched : list bool) (t : bool) :
  wroteHeader w1 = false ->
  wroteHeader w2 = false ->
  log_of t (run_schedule env1 env2 sched race_init) = [] ->
  capturing (log_of (negb t) (run_schedule env1 env2 sched race_init)) = true ->
  let c := run_schedule env1 env2 sched race_init in
  let c' := sched_step env1 env2 t c in
  log_of t c' = [EvStartCPUProfile (Some sampler.cpu_in_use)]
  /\ (exists wf,
        thread_of t c' = Ret wf
        /\ status wf = StatusInternalServerError
        /\ written wf
           = (written (if t then w1 else w2)
              ++ [("Could not enable CPU profiling: cpu profiling already in use" ++ LF)%string])%list)
  /\ shared c' = shared c
  /\ sampler.cpu_profiling (shared c') = true
  /\ thread_of (negb t) c' = thread_of (negb t) c
  /\ log_of (negb t) c' = log_of (negb t) c
  /\ forall sched',
       let c'' := run_schedule env1 env2 sched' c' in
       starts_ok (log_of t c'') = 0%nat
       /\ starts_ok (log_of (negb t) c'') = 1%nat
       /\ capturing (log1 c'') && capturing (log2 c'') = false
       /\ (returned (thread1 c'') && returned (thread2 c'') = true ->
           sampler.cpu_profiling (shared c'') = false).
Proof.
  intros Hw1 Hw2 Hlog Hcap c c'.
  assert (I : pool_inv c) by (apply pool_inv_run, pool_inv_init).
  assert (I' : pool_inv c') by (apply pool_inv_step, I).
  destruct (pool_inv_thread c t I) as (T & Hs & Hx).
  fold c in Hlog, Hcap. rewrite Hlog in T, Hs, Hx.
  pose proof (tstate_nil _ _ _ T) as Hp.
  pose proof (thread_step (if t then env1 else env2) _ _ _ _ _ _ T Hs Hx) as St.
  pose proof (sched_step_of t c) as Sc. fold c' in Sc.
  destruct (step (if t then env1 else env2) (shared c) (thread_of t c))
    as [[[s' p'] ev]|].
  2:{ rewrite Hp in St. destruct (Profile_shape (if t then w1 else w2)
        (if t then r1 else r2)) as (k & E & _). rewrite E in St. discriminate St. }
  destruct St as (_ & _ & _ & Hrace).
  destruct (Hrace eq_refl Hcap) as (-> & -> & ->).
  destruct Sc as (Sh & Th & Lg & Tho & Lgo).
  rewrite Hlog in Lg. cbn [app] in Lg.
  assert (Hw : wroteHeader (if t then w1 else w2) = false) by (destruct t; assumption).
  destruct (failed_response (if t then w1 else w2)
              "Could not enable CPU profiling: " sampler.cpu_in_use Hw)
    as (F1 & _ & F3).
  split; [exact Lg|]. split; [exists (cpu_failed (if t then w1 else w2)); auto|].
  split; [exact Sh|]. split; [rewrite Sh, Hs, Hcap; reflexivity|].
  split; [exact Tho|]. split; [exact Lgo|].
  intros sched' c''.
  assert (I'' : pool_inv c'') by (apply pool_inv_run, I').
  destruct (returned_stays t sched' c') as [R1 _]; [rewrite Th; reflexivity|].
  fold c'' in R1.
  destruct (run_schedule_log_ext (negb t) sched' c') as [ext Hext]. fold c'' in Hext.
  destruct (pool_inv_thread c'' (negb t) I'') as (To & _ & _).
  pose proof (tstate_starts_le1 _ _ _ _ To) as Hle.
  pose proof (capturing_starts _ Hcap) as Hge.
  rewrite Hext, Lgo, starts_ok_app in Hle.
  split; [rewrite R1, Lg; reflexivity|].
  split; [rewrite Hext, Lgo, starts_ok_app; lia|].
  destruct I'' as (T1'' & T2'' & Hs'' & Hx'').
  split; [exact Hx''|].
  intros Hr. apply andb_prop in Hr as [Hr1 Hr2].
  rewrite Hs'', (tstate_returned _ _ _ _ T1'' Hr1), (tstate_returned _ _ _ _ T2'' Hr2).
  reflexivity.
Qed.

End Race.

Lemma concurrent_profile_race_witness :
  let w := newResponseWriter true in
  let r := request [("seconds", "5")] in
  let init := race_init string sample_Parse sample_Generate w w r r in
  let c := run_schedule env_resolved env_unresolved [true; true] init in
  let c' := sched_step env_resolved env_unresolved false c in
  wroteHeader w = false
  /\ log_of false c = []
  /\ capturing (log_of true c) = true
  /\ log_of false c' = [EvStartCPUProfile (Some sampler.cpu_in_use)]
  /\ (exists wf,
        thread_of false c' = Ret wf
        /\ status wf = StatusInternalServerError
        /\ written wf
           = (written w
              ++ [("Could not enable CPU profiling: cpu profiling already in use" ++ LF)%string])%list)
  /\ shared c' = shared c
  /\ sampler.cpu_profiling (shared c') = true.
Proof.
  intros w r init c c'.
  assert (H1 : wroteHeader w = false) by reflexivity.
  assert (H2 : log_of false c = []) by reflexivity.
  assert (H3 : capturing (log_of (negb false) c) = true) by reflexivity.
  destruct (concurrent_profile_race string sample_Parse sample_Generate
              env_resolved env_unresolved w w r r [true; true] false
              H1 H1 H2 H3) as (C1 & C2 & C3 & C4 & _).
  split; [exact H1|]. split; [exact H2|]. split; [exact H3|].
  split; [exact C1|]. split; [exact C2|]. split; [exact C3 | exact C4].
Defined.

(** The capture of the first request is over when the second handler comes to
    its start: both starts succeed, one after the other. *)
Example captures_in_turn :
  let w := newResponseWriter true in
  let r := request [("seconds", "5")] in
  let c := run_schedule env_resolved env_unresolved [true; true; true; false]
             (race_init string sample_Parse sample_Generate w w r r) in
  returned (thread_of true c) = false
  /\ log_of false c = [EvStartCPUProfile None]
  /\ starts_ok (log_of true c) = 1%nat
  /\ sampler.cpu_profiling (shared c) = true.
Proof. vm_compute. repeat split. Qed.

(** C9 as it is written fails when the two requests are served at once but
    their captures do not overlap.  The first handler starts, waits and stops
    its profile, and has its response still to make when the second handler
    starts: that start succeeds too.  Both handlers are then at work, the
    second capturing; both end with status 200 and the report, and no start
    has failed. *)
Lemma concurrent_profiles_both_start_counterexample :
  let w := newResponseWriter true in
  let r := request [("seconds", "5")] in
  let init := race_init string sample_Parse sample_Generate w w r r in
  let c := run_schedule env_resolved env_resolved [true; true; true; false] init in
  let c' := run_schedule env_resolved env_resolved [false; false; false; true] c in
  returned (thread_of true c) = false
  /\ returned (thread_of false c) = false
  /\ log_of true c
     = [EvStartCPUProfile None; EvSleep 5000000000 TimerFired; EvStopCPUProfile]
  /\ log_of false c = [EvStartCPUProfile None]
  /\ starts_ok (log_of true c') = 1%nat
  /\ starts_ok (log_of false c') = 1%nat
  /\ exists wa wb,
       thread_of true c' = Ret wa /\ thread_of false c' = Ret wb
       /\ status wa = StatusOK /\ status wb = StatusOK
       /\ body wa = "report of samples with symbols by flat" ++ LF
       /\ body wb = "report of samples with symbols by flat" ++ LF.
Proof.
  intros w r init c c'.
  do 6 (split; [vm_compute; reflexivity|]).
  do 2 eexists. split; [vm_compute; reflexivity|].
  split; [vm_compute; reflexivity|]. vm_compute. repeat split; reflexivity.
Qed.

(* ================================================================== *)
(** * More on Profile and Trace *)

Lemma int64_small (x : Z) : - 2 ^ 63 <= x < 2 ^ 63 -> int64 x = x.
Proof.
  intros H. unfold int64, two64.
  destruct (Z_lt_le_dec x 0) as [Hn|Hp].
  - assert (E : x mod 2 ^ 64 = x + 2 ^ 64).
    { symmetry. apply (Z.mod_unique_pos x (2 ^ 64) (-1) (x + 2 ^ 64)); lia. }
    rewrite E.
    destruct (x + 2 ^ 64 <? 2 ^ 63) eqn:C; [apply Z.ltb_lt in C; lia | lia].
  - rewrite Z.mod_small by lia.
    destruct (x <? 2 ^ 63) eqn:C; [reflexivity | apply Z.ltb_ge in C; lia].
Qed.

Lemma written_fold_Write (chunks : list string) :
  forall w, written (fold_left Write chunks w) = (written w ++ chunks)%list.
Proof.
  induction chunks as [|c chunks IH]; intros w; cbn [fold_left].
  - now rewrite app_nil_r.
  - rewrite IH, written_Write, <- app_assoc. reflexivity.
Qed.

Lemma fold_Write_sent (chunks : list string) :
  forall w, wroteHeader w = true ->
    wroteHeader (fold_left Write chunks w) = true
    /\ status (fold_left Write chunks w) = status w
    /\ sentHeader (fold_left Write chunks w) = sentHeader w.
Proof.
  induction chunks as [|c chunks IH]; intros w H; cbn [fold_left].
  - repeat split; assumption.
  - assert (E : wroteHeader (Write w c) = true /\ status (Write w c) = status w
                /\ sentHeader (Write w c) = sentHeader w)
      by (unfold Write; rewrite H; repeat split; assumption).
    destruct E as (E1 & E2 & E3).
    destruct (IH (Write w c) E1) as (I1 & I2 & I3).
    rewrite I2, I3, E2, E3. repeat split; assumption.
Qed.

Section MoreRuns.

Variable Prof : Type.
Variable profile_Parse : string -> Prof + error.
Variable report_Generate : Prof -> report_Options -> string.
Variable atof64 : string -> float * option strconv.NumError.

Local Abbreviation Profile := (Profile Prof profile_Parse report_Generate).
Local Abbreviation Trace := (Trace Prof atof64).
Local Abbreviation Env := (Env Prof).

(** A binary profile: once the capture has started, the response is status
    200, an octet stream, and exactly the bytes captured in one write; the
    bytes are neither parsed nor sent to the symbol server. *)
Theorem Profile_binary_response (env : Env) (w : ResponseWriter) (r : Request)
    (s : sampler.Sampler) :
  wroteHeader w = false ->
  sampler.cpu_profiling s = false ->
  is_binary r = true ->
  exists w1 s1,
    run env (Profile w r) s []
    = (w1, s1,
       [ EvStartCPUProfile None;
         EvSleep (Profile_duration r) (wake_of env (closeNotifier w));
         EvStopCPUProfile ])
    /\ status w1 = StatusOK
    /\ Header_Get (sentHeader w1) "Content-Type" = "application/octet-stream"
    /\ written w1 = (written w ++ [cpu_samples env])%list.
Proof.
  intros Hw Hs Hb. rewrite (run_Profile_binary _ _ _ env w r s [] Hs Hb).
  do 2 eexists. split; [reflexivity|].
  unfold Write, WriteHeader, SetHeader.
  cbn [wroteHeader status sentHeader written header]. rewrite Hw.
  cbn [wroteHeader status sentHeader written header]. repeat split.
Qed.

(** A text profile whose symbolization reports no error: status 200, plain
    text, and the body is the report alone, generated from the profile the
    symbol server returned, in text format, with addresses, sorted by
    cumulative weight exactly when [cum] parses as true.  The symbol server
    is asked at [http://<Host>/symbol]. *)
Theorem Profile_text_response (env : Env) (w : ResponseWriter) (r : Request)
    (s : sampler.Sampler) (prof prof' : Prof) :
  wroteHeader w = false ->
  sampler.cpu_profiling s = false ->
  is_binary r = false ->
  profile_Parse (cpu_samples env) = inl prof ->
  symbolz_Symbolize env ("http://" ++ Host r ++ "/symbol") prof = (None, prof') ->
  exists w1 s1,
    run env (Profile w r) s []
    = (w1, s1,
       [ EvStartCPUProfile None;
         EvSleep (Profile_duration r) (wake_of env (closeNotifier w));
         EvStopCPUProfile;
         EvSymbolize ("http://" ++ Host r ++ "/symbol") ])
    /\ status w1 = StatusOK
    /\ Header_Get (sentHeader w1) "Content-Type" = "text/plain; charset=utf-8"
    /\ written w1
       = (written w
          ++ [report_Generate prof'
                (mkOptions report_Text
                   (fst (strconv.ParseBool (FormValue r "cum"))) true)])%list.
Proof.
  intros Hw Hs Hb Hp Hy.
  rewrite (run_Profile_text _ _ _ env w r s [] prof None prof' Hs Hb Hp Hy).
  do 2 eexists. split; [reflexivity|].
  unfold Write, WriteHeader, SetHeader.
  cbn [wroteHeader status sentHeader written header]. rewrite Hw.
  cbn [wroteHeader status sentHeader written header]. repeat split.
Qed.

(** The wait of [Profile] is the number of seconds asked for, for every
    nonzero integer whose nanoseconds fit an [int64] (up to 9223372036 in
    absolute value); a negative number gives a negative wait. *)
Theorem Profile_waits_requested_seconds (env : Env) (w : ResponseWriter)
    (r : Request) (n : Z) :
  strconv.ParseInt (FormValue r "seconds") 10 64 = (n, None) ->
  n <> 0 ->
  - 9223372036 <= n <= 9223372036 ->
  Profile_duration r = n * Second
  /\ exists w1 s1 rest,
       run env (Profile w r) sampler.idle []
       = (w1, s1,
          (EvStartCPUProfile None
           :: EvSleep (n * Second) (wake_of env (closeNotifier w)) :: rest)%list).
Proof.
  intros Hn Hz Hr.
  assert (D : Profile_duration r = n * Second).
  { unfold Profile_duration, Profile_sec. rewrite Hn. cbn [fst].
    destruct (n =? 0) eqn:E; [apply Z.eqb_eq in E; contradiction|].
    apply int64_small. unfold Second. lia. }
  split; [exact D|]. rewrite <- D.
  destruct (is_binary r) eqn:Hb.
  - rewrite (run_Profile_binary _ profile_Parse report_Generate env w r
               sampler.idle [] eq_refl Hb).
    do 3 eexists. reflexivity.
  - destruct (profile_Parse (cpu_samples env)) as [prof|e] eqn:Hp.
    + destruct (symbolz_Symbolize env (symbol_url r) prof) as [err prof'] eqn:Hy.
      rewrite (run_Profile_text _ profile_Parse report_Generate env w r
                 sampler.idle [] prof err prof' eq_refl Hb Hp Hy).
      do 3 eexists. reflexivity.
    + rewrite (run_Profile_unparsed _ profile_Parse report_Generate env w r
                 sampler.idle [] e eq_refl Hb Hp).
      do 3 eexists. reflexivity.
Qed.

(** A trace that starts: the response is what the tracer wrote, chunk by
    chunk and nothing else; when the tracer wrote something, the status is
    200 and the content an octet stream. *)
Theorem Trace_response (env : Env) (w : ResponseWriter) (r : Request)
    (s : sampler.Sampler) (chunk : string) (chunks : list string) :
  wroteHeader w = false ->
  sampler.tracing s = false ->
  trace_chunks env = chunk :: chunks ->
  exists w1 s1 log,
    run env (Trace w r) s [] = (w1, s1, log)
    /\ written w1 = (written w ++ chunk :: chunks)%list
    /\ status w1 = StatusOK
    /\ Header_Get (sentHeader w1) "Content-Type" = "application/octet-stream".
Proof.
  intros Hw Hs Hc. rewrite (run_Trace_idle _ atof64 env w r s [] Hs).
  do 3 eexists. split; [reflexivity|]. rewrite Hc.
  split; [rewrite written_fold_Write; reflexivity|]. cbn [fold_left].
  set (w0 := Write (SetHeader w "Content-Type" octet_stream) chunk).
  assert (H0 : wroteHeader w0 = true /\ status w0 = StatusOK
               /\ Header_Get (sentHeader w0) "Content-Type" = octet_stream).
  { unfold w0, Write, WriteHeader, SetHeader.
    cbn [wroteHeader status sentHeader written header]. rewrite Hw.
    cbn [wroteHeader status sentHeader written header]. repeat split. }
  destruct H0 as (A & B & C).
  destruct (fold_Write_sent chunks w0 A) as (_ & F2 & F3).
  rewrite F2, F3. split; [exact B | exact C].
Qed.

(** On a writer that is not an [http.CloseNotifier], the wait of [Profile]
    and of [Trace] ends with the timer only, even when the client goes
    away. *)
Theorem wait_without_CloseNotifier (env : Env) (w : ResponseWriter)
    (r : Request) (s s' : sampler.Sampler) :
  closeNotifier w = false ->
  sampler.cpu_profiling s = false ->
  sampler.tracing s' = false ->
  (exists w1 s1 rest,
     run env (Profile w r) s []
     = (w1, s1,
        (EvStartCPUProfile None :: EvSleep (Profile_duration r) TimerFired
         :: rest)%list))
  /\ (exists w2 s2 rest,
        run env (Trace w r) s' []
        = (w2, s2,
           (EvTraceStart None :: EvSleep (Trace_duration atof64 r) TimerFired
            :: rest)%list)).
Proof.
  intros Hc Hs Hs'.
  assert (W : wake_of env (closeNotifier w) = TimerFired)
    by (unfold wake_of; rewrite Hc; reflexivity).
  rewrite <- W. split.
  - destruct (is_binary r) eqn:Hb.
    + rewrite (run_Profile_binary _ profile_Parse report_Generate env w r s [] Hs Hb).
      do 3 eexists. reflexivity.
    + destruct (profile_Parse (cpu_samples env)) as [prof|e] eqn:Hp.
      * destruct (symbolz_Symbolize env (symbol_url r) prof) as [err prof'] eqn:Hy.
        rewrite (run_Profile_text _ profile_Parse report_Generate env w r s []
                   prof err prof' Hs Hb Hp Hy).
        do 3 eexists. reflexivity.
      * rewrite (run_Profile_unparsed _ profile_Parse report_Generate env w r s []
                   e Hs Hb Hp).
        do 3 eexists. reflexivity.
  - rewrite (run_Trace_idle _ atof64 env w r s' [] Hs'). do 3 eexists. reflexivity.
Qed.

(** [Profile] and [Trace] leave the samplers as they found them, whatever
    happens: a capture they started is stopped, and a capture they could not
    start, because another one is running, is not stopped. *)
Theorem handlers_leave_sampler_as_found (env : Env) (w : ResponseWriter)
    (r : Request) (s : sampler.Sampler) :
  snd (fst (run env (Profile w r) s [])) = s
  /\ snd (fst (run env (Trace w r) s [])) = s.
Proof.
  destruct s as [c t]. split.
  - destruct c.
    + rewrite (run_Profile_busy _ profile_Parse report_Generate env w r
                 (sampler.mkSampler true t) [] eq_refl).
      reflexivity.
    + destruct (is_binary r) eqn:Hb.
      * rewrite (run_Profile_binary _ profile_Parse report_Generate env w r
                   (sampler.mkSampler false t) [] eq_refl Hb). reflexivity.
      * destruct (profile_Parse (cpu_samples env)) as [prof|e] eqn:Hp.
        -- destruct (symbolz_Symbolize env (symbol_url r) prof) as [err prof'] eqn:Hy.
           rewrite (run_Profile_text _ profile_Parse report_Generate env w r
                      (sampler.mkSampler false t) [] prof err prof' eq_refl Hb Hp Hy).
           reflexivity.
        -- rewrite (run_Profile_unparsed _ profile_Parse report_Generate env w r
                      (sampler.mkSampler false t) [] e eq_refl Hb Hp). reflexivity.
  - destruct t.
    + rewrite (run_Trace_busy _ atof64 env w r (sampler.mkSampler c true) [] eq_refl).
      reflexivity.
    + rewrite (run_Trace_idle _ atof64 env w r (sampler.mkSampler c false) [] eq_refl).
      reflexivity.
Qed.

End MoreRuns.

(* ================================================================== *)
(** * More on Symbol *)

(** Read errors do not change the status: on a fresh writer the response of
    [Symbol] is always status 200, plain text, in a single write. *)
Theorem Symbol_status_200 (functab : list runtime.Func) (w : ResponseWriter)
    (r : Request) :
  wroteHeader w = false ->
  exists w' log out,
    Symbol functab w r = Some (w', log)
    /\ status w' = StatusOK
    /\ Header_Get (sentHeader w') "Content-Type" = "text/plain; charset=utf-8"
    /\ written w' = (written w ++ [out])%list.
Proof.
  intros Hw. unfold Symbol.
  destruct (Symbol_loop_spec functab _ (Symbol_reader r) ("num_symbols: 1" ++ LF) []
              (Symbol_reader_pending_fuel r))
    as (lines & last & e & rest & E & _ & _).
  rewrite E. do 3 eexists. split; [reflexivity|].
  unfold Write, WriteHeader, SetHeader.
  cbn [wroteHeader status sentHeader written header]. rewrite Hw.
  cbn [wroteHeader status sentHeader written header]. repeat split.
Qed.

(** The digits [fmt] prints in base 16 are digits for [ParseUint]. *)
Lemma hexdigit_char (d : Z) :
  0 <= d < 16 ->
  (byte (fmt.hexdigit d) =? byte "_") = false
  /\ (if (byte "0" <=? byte (fmt.hexdigit d)) && (byte (fmt.hexdigit d) <=? byte "9")
      then Some (byte (fmt.hexdigit d) - byte "0")
      else if (byte "a" <=? strconv.lower (byte (fmt.hexdigit d)))
              && (strconv.lower (byte (fmt.hexdigit d)) <=? byte "z")
           then Some (strconv.lower (byte (fmt.hexdigit d)) - byte "a" + 10)
           else None) = Some d.
Proof.
  intros Hd.
  assert (D : d = 0 \/ d = 1 \/ d = 2 \/ d = 3 \/ d = 4 \/ d = 5 \/ d = 6 \/ d = 7
              \/ d = 8 \/ d = 9 \/ d = 10 \/ d = 11 \/ d = 12 \/ d = 13 \/ d = 14
              \/ d = 15) by lia.
  repeat (destruct D as [D|D]; [subst d; vm_compute; split; reflexivity|]).
  subst d; vm_compute; split; reflexivity.
Qed.

Lemma hexdigit_step (d n : Z) (acc : string) (us : bool) :
  0 <= d < 16 -> 0 <= n < 2 ^ 60 ->
  strconv.ParseUint_loop 16 true (2 ^ 60) maxUint64
    (String (fmt.hexdigit d) acc) n us
  = strconv.ParseUint_loop 16 true (2 ^ 60) maxUint64 acc (n * 16 + d) us.
Proof.
  intros Hd Hn.
  assert (U1 : uint64 (n * 16) = n * 16)
    by (unfold uint64, two64; apply Z.mod_small; lia).
  assert (U2 : uint64 (n * 16 + d) = n * 16 + d)
    by (unfold uint64, two64; apply Z.mod_small; lia).
  assert (C0 : (d >=? 16) = false) by (rewrite Z.geb_leb; apply Z.leb_gt; lia).
  assert (C1 : (n >=? 2 ^ 60) = false) by (rewrite Z.geb_leb; apply Z.leb_gt; lia).
  assert (C2 : (n * 16 + d <? n * 16) = false) by (apply Z.ltb_ge; lia).
  assert (C3 : (n * 16 + d >? maxUint64) = false).
  { rewrite Z.gtb_ltb. apply Z.ltb_ge. unfold maxUint64, two64. lia. }
  destruct (hexdigit_char d Hd) as [E1 E2].
  cbn [strconv.ParseUint_loop]. rewrite E1. cbn [andb]. rewrite E2.
  rewrite C0, C1, U1, U2, C2, C3. reflexivity.
Qed.

Lemma fmt_hex_loop_length (fuel : nat) :
  forall u acc,
    (String.length acc <= String.length (fmt.fmt_hex_loop fuel u acc))%nat.
Proof.
  induction fuel as [|fuel IH]; intros u acc; cbn [fmt.fmt_hex_loop]; [lia|].
  destruct (u >=? 16).
  - specialize (IH (Z.shiftr u 4) (String (fmt.hexdigit (Z.land u 15)) acc)).
    cbn [String.length] in IH. lia.
  - cbn [String.length]. lia.
Qed.

Lemma fmt_hex_loop_parse (fuel : nat) :
  forall u acc us,
    0 <= u < 16 ^ Z.of_nat fuel -> u < 2 ^ 64 ->
    strconv.ParseUint_loop 16 true (2 ^ 60) maxUint64
      (fmt.fmt_hex_loop fuel u acc) 0 us
    = strconv.ParseUint_loop 16 true (2 ^ 60) maxUint64 acc u us.
Proof.
  induction fuel as [|fuel IH]; intros u acc us Hu H64; cbn [fmt.fmt_hex_loop].
  - change (16 ^ Z.of_nat 0) with 1 in Hu. assert (u = 0) by lia. subst u.
    reflexivity.
  - rewrite Nat2Z.inj_succ, Z.pow_succ_r in Hu by lia.
    destruct (u >=? 16) eqn:C.
    + rewrite Z.geb_leb in C. apply Z.leb_le in C.
      assert (Hs : Z.shiftr u 4 = u / 16)
        by (rewrite Z.shiftr_div_pow2 by lia; reflexivity).
      assert (Hl : Z.land u 15 = u mod 16)
        by (change 15 with (Z.ones 4); rewrite Z.land_ones by lia; reflexivity).
      pose proof (Z.div_mod u 16 ltac:(lia)) as Hdm.
      pose proof (Z.mod_pos_bound u 16 ltac:(lia)) as Hmb.
      rewrite IH; [|rewrite Hs; split; [apply Z.div_pos; lia
                                       | apply Z.div_lt_upper_bound; lia]
                   |rewrite Hs; apply Z.div_lt_upper_bound; lia].
      rewrite hexdigit_step; [|rewrite Hl; lia
                              |rewrite Hs; split; [apply Z.div_pos; lia
                                                  | apply Z.div_lt_upper_bound; lia]].
      f_equal. rewrite Hs, Hl. lia.
    + rewrite Z.geb_leb in C. apply Z.leb_gt in C.
      rewrite hexdigit_step by lia. f_equal.
Qed.

(** Round trip: the address [Symbol] prints for a program counter, [%#x], is
    read back by [ParseUint] with base 0 as the same counter. *)
Lemma ParseUint_sharp_x (pc : Z) :
  0 <= pc < two64 -> strconv.ParseUint (fmt.sharp_x pc) 0 64 = (pc, None).
Proof.
  intros Hpc. unfold fmt.sharp_x.
  assert (U : uint64 pc = pc) by (unfold uint64; apply Z.mod_small; exact Hpc).
  rewrite U.
  pose proof (fmt_hex_loop_parse 16 pc "" false) as HP.
  pose proof (fmt_hex_loop_length 15 (Z.shiftr pc 4)
                (String (fmt.hexdigit (Z.land pc 15)) "")) as HL1.
  assert (HL : (1 <= String.length (fmt.fmt_hex_loop 16 pc ""))%nat).
  { change (fmt.fmt_hex_loop 16 pc "")
      with (if pc >=? 16
            then fmt.fmt_hex_loop 15 (Z.shiftr pc 4)
                   (String (fmt.hexdigit (Z.land pc 15)) "")
            else String (fmt.hexdigit pc) "").
    destruct (pc >=? 16); [cbn [String.length] in HL1; lia | cbn; lia]. }
  destruct (fmt.fmt_hex_loop 16 pc "") as [|c t] eqn:E; [cbn in HL; lia|].
  unfold strconv.ParseUint.
  change ("0x" ++ String c t) with (String "0" (String "x" (String c t))).
  assert (S3 : (3 <=? slen (String "0" (String "x" (String c t)))) = true).
  { apply Z.leb_le. unfold slen. cbn [String.length]. lia. }
  rewrite S3.
  change ((String "0" (String "x" (String c t)) =? "")%string) with false.
  change ((2 <=? 0) && (0 <=? 36)) with false.
  change (0 =? 0) with true.
  change (at_ (String "0" (String "x" (String c t))) 0 =? byte "0") with true.
  change (strconv.lower (at_ (String "0" (String "x" (String c t))) 1))
    with (strconv.lower (byte "x")).
  change (strconv.lower (byte "x") =? byte "b") with false.
  change (strconv.lower (byte "x") =? byte "o") with false.
  change (strconv.lower (byte "x") =? byte "x") with true.
  cbn [andb]. cbv iota. cbn [drop].
  change ((64 <? 0) || (64 <? 64)) with false. cbv iota.
  change (if 64 =? 0 then strconv.IntSize else 64) with 64.
  change (uint64 (uint64 (Z.shiftl 1 64) - 1)) with maxUint64.
  change (maxUint64 / 16 + 1) with (2 ^ 60).
  rewrite HP; [reflexivity | | ].
  - change (16 ^ Z.of_nat 16) with two64. exact Hpc.
  - apply Hpc.
Qed.

(** Round trip on the response: the address of a line, given back to [Symbol]
    as a token, looks up the same counter as the token that produced the
    line, so it produces the same line again. *)
Theorem Symbol_address_round_trip (functab : list runtime.Func) (tok : string)
    (pc : Z) :
  strconv.ParseUint tok 0 64 = (pc, None) ->
  strconv.ParseUint (fmt.sharp_x pc) 0 64 = (pc, None)
  /\ lookup_word functab (fmt.sharp_x pc) = lookup_word functab tok.
Proof.
  intros H. destruct (ParseUint_value tok pc None H) as [Hr _].
  pose proof (ParseUint_sharp_x pc Hr) as E. split; [exact E|].
  unfold lookup_word. rewrite E, H. reflexivity.
Qed.

Lemma Symbol_address_round_trip_witness :
  strconv.ParseUint "12345" 0 64 = (12345, None)
  /\ strconv.ParseUint (fmt.sharp_x 12345) 0 64 = (12345, None)
  /\ lookup_word sample_functab (fmt.sharp_x 12345)
     = lookup_word sample_functab "12345".
Proof.
  assert (H : strconv.ParseUint "12345" 0 64 = (12345, None)) by reflexivity.
  split; [exact H|].
  exact (Symbol_address_round_trip sample_functab "12345" 12345 H).
Defined.

(* ================================================================== *)
(** * The named profiles and the index page *)



Section NamedProfileProperties.

Variable PProfile : Type.
Variable pprof_Lookup : string -> option PProfile.
Variable pprof_Profiles : list PProfile.
Variable WriteTo : PProfile -> Z -> bool -> list string.
Variable Tmpl : Type.
Variable template_Parse : string -> Tmpl + error.
Variable template_Execute : Tmpl -> list PProfile -> list string * option error.

Local Abbreviation ServeHTTP := (ServeHTTP pprof_Lookup WriteTo).
Local Abbreviation Index :=
  (Index pprof_Lookup pprof_Profiles WriteTo template_Parse template_Execute).

(** A name that the registry does not know is answered 404, in plain text,
    with the one line [Unknown profile: <name>], the name copied as it is;
    nothing is collected and no profile is dumped, whatever [gc] says. *)
Theorem ServeHTTP_unknown_profile (name : string) (w : ResponseWriter)
    (r : Request) :
  wroteHeader w = false ->
  pprof_Lookup name = None ->
  exists w',
    ServeHTTP name w r = (w', [])
    /\ status w' = StatusNotFound
    /\ Header_Get (sentHeader w') "Content-Type" = "text/plain; charset=utf-8"
    /\ written w' = (written w ++ [("Unknown profile: " ++ name ++ LF)%string])%list.
Proof.
  intros Hw Hl. unfold ServeHTTP. rewrite Hl. eexists. split; [reflexivity|].
  unfold Write, WriteHeader, SetHeader.
  cbn [wroteHeader status sentHeader written header]. rewrite Hw.
  cbn [wroteHeader status sentHeader written header]. repeat split.
Qed.



(** [Index] serves every path but [/] as the profile named by the path
    without its first slash: when the registry does not know that name, the
    answer is 404 with the name, and the template is not looked at. *)
Theorem Index_unknown_path (htmlTemplate path : string) (w : ResponseWriter)
    (r : Request) :
  wroteHeader w = false ->
  path <> "/" ->
  pprof_Lookup (TrimPrefix path "/") = None ->
  exists w',
    Index htmlTemplate w path r = Returned (w', [])
    /\ status w' = StatusNotFound
    /\ written w'
       = (written w
          ++ [("Unknown profile: " ++ TrimPrefix path "/" ++ LF)%string])%list.
Proof.
  intros Hw Hp Hl. unfold Index.
  destruct (String.eqb_spec path "/") as [E|_]; [contradiction|]. cbn [negb].
  destruct (ServeHTTP_unknown_profile (TrimPrefix path "/") w r Hw Hl)
    as (w' & E & S & _ & Wr).
  exists w'. rewrite E. repeat split; assumption.
Qed.

(** With a template that does not parse, every request for [/] panics with
    the error of the parser and writes nothing, while the other paths are
    served as named profiles all the same. *)
Theorem Index_broken_template (htmlTemplate : string) (w : ResponseWriter)
    (r : Request) (e : error) :
  template_Parse htmlTemplate = inr e ->
  Index htmlTemplate w "/" r = Panicked e
  /\ forall path, path <> "/" ->
       Index htmlTemplate w path r
       = Returned (ServeHTTP (TrimPrefix path "/") w r).
Proof.
  intros H. split.
  - unfold Index. cbn [String.eqb Ascii.eqb Bool.eqb negb]. rewrite H. reflexivity.
  - intros path Hp. unfold Index.
    destruct (String.eqb_spec path "/") as [E|_]; [contradiction|]. reflexivity.
Qed.

End NamedProfileProperties.

(* ================================================================== *)
(** * The options and the server *)

Lemma nth_error_set_nth_eq {A} (l : list A) :
  forall i x y, nth_error l i = Some y -> nth_error (set_nth l i x) i = Some x.
Proof.
  induction l as [|h t IH]; intros [|i] x y H; cbn in *; try discriminate;
    [reflexivity | eapply IH; exact H].
Qed.

Lemma nth_error_set_nth_neq {A} (l : list A) :
  forall i j x, i <> j -> nth_error (set_nth l i x) j = nth_error l j.
Proof.
  induction l as [|h t IH]; intros [|i] [|j] x H; cbn; try reflexivity;
    [contradiction | apply IH; congruence].
Qed.

Lemma apply_options_app (a b : list ProfilerOption) :
  forall st,
    apply_options (a ++ b) st
    = match apply_options a st with
      | Some st' => apply_options b st'
      | None => None
      end.
Proof.
  induction a as [|o a IH]; intros st; cbn [app apply_options]; [reflexivity|].
  destruct (o st); [apply IH | reflexivity].
Qed.

Lemma set_nth_last {A} (l : list A) (x y : A) :
  set_nth (l ++ [x]) (List.length l) y = (l ++ [y])%list.
Proof. induction l as [|h t IH]; cbn; [reflexivity | now rewrite IH]. Qed.

(** With no option, the profiler has a new server of its own, at
    [127.0.0.1:6060], whose handler is the bare mux; the servers that exist
    are not touched; [Run] listens without TLS, and the error the listener
    ends with is dropped. *)
Theorem New_defaults (defaultHTMLTemplate : string) (h : Heap)
    (listen : ListenCall -> error) :
  exists p,
    New defaultHTMLTemplate [] h
    = Some (p, (h ++ [mkServer "127.0.0.1:6060" (Some (mux_Handler muxer))])%list)
    /\ server p = Some (List.length h)
    /\ htmlTemplate p = defaultHTMLTemplate
    /\ Run p listen = (Some (ListenAndServe (List.length h)), None).
Proof.
  unfold New, New_start. cbn [apply_options registerHandlers server].
  assert (E : nth_error (h ++ [mkServer defaultAddr None]) (List.length h)
              = Some (mkServer defaultAddr None)).
  { rewrite nth_error_app2 by lia. rewrite Nat.sub_diag. reflexivity. }
  rewrite E, set_nth_last. eexists. split; [reflexivity|]. repeat split.
Qed.

(** The options act in order.  An address given last is the address of the
    profiler's server, whatever server that is by then, and that server gets
    the profiler's handler. *)
Theorem New_last_address_wins (defaultHTMLTemplate addr : string)
    (options : list ProfilerOption) (h h1 : Heap) (p1 : Profiler) (a : nat)
    (s : Server) :
  apply_options options (New_start defaultHTMLTemplate h) = Some (p1, h1) ->
  server p1 = Some a ->
  nth_error h1 a = Some s ->
  exists h',
    New defaultHTMLTemplate (options ++ [WithAddr addr]) h = Some (p1, h')
    /\ nth_error h' a = Some (mkServer addr (Some (handler_of p1)))
    /\ forall b, b <> a -> nth_error h' b = nth_error h1 b.
Proof.
  intros Ho Hs Hn. unfold New. rewrite apply_options_app, Ho.
  cbn [apply_options WithAddr]. rewrite Hs, Hn.
  cbn [registerHandlers]. rewrite Hs.
  rewrite (nth_error_set_nth_eq h1 a _ s Hn). eexists. split; [reflexivity|].
  split.
  - eapply nth_error_set_nth_eq. eapply nth_error_set_nth_eq. exact Hn.
  - intros b Hb. rewrite !nth_error_set_nth_neq by congruence. reflexivity.
Qed.

(** A server of the caller's, given last, is the caller's own object: [New]
    replaces its handler, whatever it was, by the profiler's, keeps its
    address, and leaves every other server alone, the one [New] made too. *)
Theorem New_custom_server (defaultHTMLTemplate : string)
    (options : list ProfilerOption) (h h1 : Heap) (p1 : Profiler) (a : nat)
    (s : Server) :
  apply_options options (New_start defaultHTMLTemplate h) = Some (p1, h1) ->
  nth_error h1 a = Some s ->
  exists p' h',
    New defaultHTMLTemplate (options ++ [WithServer (Some a)]) h = Some (p', h')
    /\ server p' = Some a
    /\ nth_error h' a = Some (mkServer (Addr s) (Some (handler_of p1)))
    /\ forall b, b <> a -> nth_error h' b = nth_error h1 b.
Proof.
  intros Ho Hn. unfold New. rewrite apply_options_app, Ho.
  cbn [apply_options WithServer registerHandlers server]. rewrite Hn.
  do 2 eexists. split; [reflexivity|]. split; [reflexivity|]. split.
  - eapply nth_error_set_nth_eq. exact Hn.
  - intros b Hb. apply nth_error_set_nth_neq. congruence.
Qed.

(** A nil server given last makes [New] panic, whatever the other options. *)
Theorem New_nil_server_panics (defaultHTMLTemplate : string)
    (options : list ProfilerOption) (h : Heap) :
  New defaultHTMLTemplate (options ++ [WithServer None]) h = None.
Proof.
  unfold New. rewrite apply_options_app.
  destruct (apply_options options (New_start defaultHTMLTemplate h)) as [[p1 h1]|];
    reflexivity.
Qed.

(** [Run] serves TLS exactly when the certificate file and the key file are
    both given; with one of them empty it serves plain HTTP, silently. *)
Theorem Run_TLS_needs_both_files (defaultHTMLTemplate cert key : string)
    (options : list ProfilerOption) (h h1 : Heap) (p1 : Profiler) (a : nat)
    (s : Server) (listen : ListenCall -> error) :
  apply_options options (New_start defaultHTMLTemplate h) = Some (p1, h1) ->
  server p1 = Some a ->
  nth_error h1 a = Some s ->
  exists p' h',
    New defaultHTMLTemplate (options ++ [WithKeyPair cert key]) h = Some (p', h')
    /\ fst (Run p' listen)
       = Some (if String.eqb cert "" || String.eqb key ""
               then ListenAndServe a
               else ListenAndServeTLS a cert key).
Proof.
  intros Ho Hs Hn. unfold New. rewrite apply_options_app, Ho.
  cbn [apply_options WithKeyPair registerHandlers server]. rewrite Hs, Hn.
  do 2 eexists. split; [reflexivity|].
  unfold Run. cbn [server certFile keyFile errorHandler].
  destruct (String.eqb cert ""), (String.eqb key ""), (errorHandler p1);
    reflexivity.
Qed.

(** A nil error handler given last: the listener is started all the same,
    and the goroutine of [Run] panics when the listener ends. *)
Theorem Run_nil_error_handler (defaultHTMLTemplate : string)
    (options : list ProfilerOption) (h h1 : Heap) (p1 : Profiler) (a : nat)
    (s : Server) (listen : ListenCall -> error) :
  apply_options options (New_start defaultHTMLTemplate h) = Some (p1, h1) ->
  server p1 = Some a ->
  nth_error h1 a = Some s ->
  exists p' h' call,
    New defaultHTMLTemplate (options ++ [WithErrorHandler None]) h = Some (p', h')
    /\ Run p' listen = (Some call, Some nil_dereference).
Proof.
  intros Ho Hs Hn. unfold New. rewrite apply_options_app, Ho.
  cbn [apply_options WithErrorHandler registerHandlers server]. rewrite Hs, Hn.
  do 3 eexists. split; [reflexivity|].
  unfold Run. cbn [server certFile keyFile errorHandler]. reflexivity.
Qed.

(* ================================================================== *)
(** * Two Profile requests: what holds under every schedule *)

Section RaceInvariants.

Variable Prof : Type.
Variable profile_Parse : string -> Prof + error.
Variable report_Generate : Prof -> report_Options -> string.
Variables env1 env2 : Env Prof.
Variables w1 w2 : ResponseWriter.
Variables r1 r2 : Request.

Local Abbreviation tstate := (tstate Prof profile_Parse report_Generate).
Local Abbreviation race_init :=
  (race_init Prof profile_Parse report_Generate w1 w2 r1 r2).
Local Abbreviation pool_inv :=
  (pool_inv Prof profile_Parse report_Generate w1 w2 r1 r2).

(** Two [Profile] handlers over one sampler, under every schedule: they are
    never capturing together, the sampler is taken exactly while one of them
    is capturing, and no handler starts a capture twice. *)
Theorem profile_handlers_never_capture_together (sched : list bool) :
  let c := run_schedule env1 env2 sched race_init in
  capturing (log1 c) && capturing (log2 c) = false
  /\ sampler.cpu_profiling (shared c) = capturing (log1 c) || capturing (log2 c)
  /\ (starts_ok (log1 c) <= 1)%nat
  /\ (starts_ok (log2 c) <= 1)%nat.
Proof.
  intros c.
  destruct (pool_inv_run Prof profile_Parse report_Generate env1 env2 w1 w2 r1 r2
              sched _ (pool_inv_init Prof profile_Parse report_Generate w1 w2 r1 r2))
    as (T1 & T2 & Hs & Hx).
  fold c in T1, T2, Hs, Hx.
  split; [exact Hx|]. split; [exact Hs|].
  split; eapply tstate_starts_le1; eassumption.
Qed.

Lemma tstate_calls_left w r log p :
  tstate w r log p -> calls_left p = 0%nat -> returned p = true.
Proof.
  intros T; destruct T as [ | | cn d k Hq | d why k Hq | d why p Hq | d why u a];
    intros Hc; try reflexivity; try discriminate Hc.
  destruct Hq as [[a ->]|(u & prof & k & -> & _)];
    [reflexivity | discriminate Hc].
Qed.

Lemma tstate_step_calls_left (env : Env Prof) w r log p s :
  tstate w r log p ->
  match step env s p with
  | None => calls_left p = 0%nat
  | Some (_, p', _) => (calls_left p' < calls_left p)%nat
  end.
Proof.
  intros T; destruct T as [ | | cn d k Hq | d why k Hq | d why p Hq | d why u a].
  - destruct (Profile_shape Prof profile_Parse report_Generate w r)
      as (k & -> & Hf & k' & Hk & Hq).
    cbn [step]. unfold sampler.StartCPUProfile.
    destruct (sampler.cpu_profiling s); [rewrite Hf | rewrite Hk]; cbn; lia.
  - reflexivity.
  - cbn. lia.
  - cbn [step].
    destruct (Hq (if sampler.cpu_profiling s then cpu_samples env else ""))
      as [[a ->]|(u & prof & k' & -> & _)]; cbn; lia.
  - destruct Hq as [[a ->]|(u & prof & k & -> & Hk)]; [reflexivity|].
    cbn [step]. destruct (Hk (symbolz_Symbolize env u prof)) as [a ->]. cbn. lia.
  - reflexivity.
Qed.

Lemma calls_left_sched_step (t t' : bool) (c : Pool Prof) :
  pool_inv c ->
  (calls_left (thread_of t (sched_step env1 env2 t' c))
   + (if Bool.eqb t' t then 1 else 0)
   <= Nat.max 1 (calls_left (thread_of t c)))%nat
  /\ (calls_left (thread_of t (sched_step env1 env2 t' c))
      <= calls_left (thread_of t c))%nat.
Proof.
  intros I.
  destruct (pool_inv_thread Prof profile_Parse report_Generate w1 w2 r1 r2 c t' I)
    as (T & _ & _).
  pose proof (tstate_step_calls_left (if t' then env1 else env2) _ _ _ _
                (shared c) T) as St.
  pose proof (sched_step_of Prof env1 env2 t' c) as Sc.
  destruct (step (if t' then env1 else env2) (shared c) (thread_of t' c))
    as [[[s' p'] ev]|].
  - destruct Sc as (_ & Th & _ & Tho & _).
    destruct t, t'; cbn [Bool.eqb negb] in *;
      rewrite ?Th, ?Tho; lia.
  - rewrite Sc. destruct t, t'; cbn [Bool.eqb] in *; lia.
Qed.

Lemma calls_left_run (t : bool) (sched : list bool) :
  forall c, pool_inv c ->
    (calls_left (thread_of t (run_schedule env1 env2 sched c))
     + count_occ Bool.bool_dec sched t
     <= Nat.max (count_occ Bool.bool_dec sched t) (calls_left (thread_of t c)))%nat.
Proof.
  induction sched as [|t' sched IH]; intros c I.
  - cbn. lia.
  - pose proof (calls_left_sched_step t t' c I) as [S1 S2].
    pose proof (IH (sched_step env1 env2 t' c)
                  (pool_inv_step Prof profile_Parse report_Generate env1 env2
                     w1 w2 r1 r2 t' c I)) as H.
    change (run_schedule env1 env2 (t' :: sched) c)
      with (run_schedule env1 env2 sched (sched_step env1 env2 t' c)).
    cbn [count_occ]. destruct (Bool.bool_dec t' t) as [E|E].
    + subst t'. rewrite Bool.eqb_reflx in S1. lia.
    + lia.
Qed.

(** No handler is kept waiting by the other: under every schedule, a
    [Profile] handler has returned once it has been given four steps (the
    start, the wait, the stop and the call to the symbol server), whether it
    won the sampler or lost it. *)
Theorem profile_handlers_return (sched : list bool) (t : bool) :
  (4 <= count_occ Bool.bool_dec sched t)%nat ->
  returned (thread_of t (run_schedule env1 env2 sched race_init)) = true.
Proof.
  intros H.
  pose proof (pool_inv_init Prof profile_Parse report_Generate w1 w2 r1 r2) as I0.
  pose proof (calls_left_run t sched _ I0) as L.
  assert (C0 : (calls_left (thread_of t race_init) <= 4)%nat).
  { destruct t; cbv; lia. }
  pose proof (pool_inv_run Prof profile_Parse report_Generate env1 env2 w1 w2 r1 r2
                sched _ I0) as I.
  destruct (pool_inv_thread Prof profile_Parse report_Generate w1 w2 r1 r2 _ t I)
    as (T & _ & _).
  eapply tstate_calls_left; [exact T|]. lia.
Qed.

End RaceInvariants.

(* ================================================================== *)
(** * Cmdline on arguments without a percent sign *)

(** When no argument holds a percent sign, [Cmdline] answers 200, in plain
    text, with the arguments joined by NUL bytes, in one write; with no
    argument at all, the body is empty. *)
Theorem Cmdline_copies_plain_arguments (os_Args : list string)
    (w : ResponseWriter) :
  wroteHeader w = false ->
  lacks "%" (String.concat NUL os_Args) = true ->
  exists w',
    Cmdline os_Args w = Some w'
    /\ status w' = StatusOK
    /\ Header_Get (sentHeader w') "Content-Type" = "text/plain; charset=utf-8"
    /\ written w' = (written w ++ [String.concat NUL os_Args])%list.
Proof.
  intros Hw H. unfold Cmdline, fmt.Sprintf0.
  rewrite (doPrintf0_plain _ _ H (le_n _)). eexists. split; [reflexivity|].
  unfold Write, WriteHeader, SetHeader.
  cbn [wroteHeader status sentHeader written header]. rewrite Hw.
  cbn [wroteHeader status sentHeader written header]. repeat split.
Qed.

Lemma Cmdline_copies_plain_arguments_witness :
  let os_Args := ["app"; "-addr=:8080"; "-v"] in
  let w := newResponseWriter true in
  wroteHeader w = false
  /\ lacks "%" (String.concat NUL os_Args) = true
  /\ exists w',
       Cmdline os_Args w = Some w'
       /\ status w' = StatusOK
       /\ Header_Get (sentHeader w') "Content-Type" = "text/plain; charset=utf-8"
       /\ written w' = (written w ++ [String.concat NUL os_Args])%list.
Proof.
  intros os_Args w. split; [reflexivity|]. split; [reflexivity|].
  exact (Cmdline_copies_plain_arguments os_Args w eq_refl eq_refl).
Defined.

(* ================================================================== *)
(** * The properties above on sample inputs *)

Lemma Profile_binary_response_witness :
  let w := newResponseWriter true in
  let r := request [("binary", "1")] in
  wroteHeader w = false
  /\ sampler.cpu_profiling sampler.idle = false
  /\ is_binary r = true
  /\ exists w1 s1,
       run env_resolved (Profile string sample_Parse sample_Generate w r)
         sampler.idle []
       = (w1, s1,
          [ EvStartCPUProfile None;
            EvSleep (Profile_duration r) (wake_of env_resolved (closeNotifier w));
            EvStopCPUProfile ])
       /\ status w1 = StatusOK
       /\ Header_Get (sentHeader w1) "Content-Type" = "application/octet-stream"
       /\ written w1 = (written w ++ [cpu_samples env_resolved])%list.
Proof.
  intros w r. split; [reflexivity|]. split; [reflexivity|]. split; [reflexivity|].
  exact (Profile_binary_response string sample_Parse sample_Generate env_resolved
           w r sampler.idle eq_refl eq_refl eq_refl).
Defined.

Lemma Profile_text_response_witness :
  let w := newResponseWriter true in
  let r := request [("cum", "true")] in
  wroteHeader w = false
  /\ sampler.cpu_profiling sampler.idle = false
  /\ is_binary r = false
  /\ sample_Parse (cpu_samples env_resolved) = inl "samples"
  /\ symbolz_Symbolize env_resolved ("http://" ++ Host r ++ "/symbol") "samples"
     = (None, "samples with symbols")
  /\ exists w1 s1 log,
       run env_resolved (Profile string sample_Parse sample_Generate w r)
         sampler.idle [] = (w1, s1, log)
       /\ status w1 = StatusOK
       /\ written w1
          = (written w
             ++ [sample_Generate "samples with symbols"
                   (mkOptions report_Text true true)])%list.
Proof.
  intros w r. split; [reflexivity|]. split; [reflexivity|]. split; [reflexivity|].
  split; [reflexivity|]. split; [reflexivity|].
  destruct (Profile_text_response string sample_Parse sample_Generate env_resolved
              w r sampler.idle "samples" "samples with symbols"
              eq_refl eq_refl eq_refl eq_refl eq_refl)
    as (w1 & s1 & E & S & _ & Wr).
  exists w1, s1. eexists. split; [exact E|]. split; [exact S | exact Wr].
Defined.

Lemma Profile_waits_requested_seconds_witness :
  let r := request [("seconds", "15")] in
  strconv.ParseInt (FormValue r "seconds") 10 64 = (15, None)
  /\ 15 <> 0
  /\ - 9223372036 <= 15 <= 9223372036
  /\ Profile_duration r = 15 * Second.
Proof.
  intros r.
  assert (H1 : strconv.ParseInt (FormValue r "seconds") 10 64 = (15, None))
    by reflexivity.
  assert (H2 : 15 <> 0) by lia.
  assert (H3 : - 9223372036 <= 15 <= 9223372036) by lia.
  split; [exact H1|]. split; [exact H2|]. split; [exact H3|].
  exact (proj1 (Profile_waits_requested_seconds string sample_Parse sample_Generate
                  env_resolved (newResponseWriter true) r 15 H1 H2 H3)).
Defined.

Lemma Trace_response_witness :
  let w := newResponseWriter true in
  let r := request [("seconds", "0.5")] in
  wroteHeader w = false
  /\ sampler.tracing sampler.idle = false
  /\ trace_chunks env_resolved = ["trace header"; "trace events"]
  /\ exists w1 s1 log,
       run env_resolved (Trace string sample_atof64 w r) sampler.idle []
       = (w1, s1, log)
       /\ written w1 = (written w ++ ["trace header"; "trace events"])%list
       /\ status w1 = StatusOK
       /\ Header_Get (sentHeader w1) "Content-Type" = "application/octet-stream".
Proof.
  intros w r. split; [reflexivity|]. split; [reflexivity|]. split; [reflexivity|].
  exact (Trace_response string sample_atof64 env_resolved w r sampler.idle
           "trace header" ["trace events"] eq_refl eq_refl eq_refl).
Defined.

Lemma wait_without_CloseNotifier_witness :
  let w := newResponseWriter false in
  let r := request [("seconds", "5")] in
  closeNotifier w = false
  /\ sampler.cpu_profiling sampler.idle = false
  /\ sampler.tracing sampler.idle = false
  /\ wake string env_unresolved = ClientGone
  /\ exists w1 s1 rest,
       run env_unresolved (Profile string sample_Parse sample_Generate w r)
         sampler.idle []
       = (w1, s1,
          (EvStartCPUProfile None :: EvSleep (Profile_duration r) TimerFired
           :: rest)%list).
Proof.
  intros w r. split; [reflexivity|]. split; [reflexivity|]. split; [reflexivity|].
  split; [reflexivity|].
  exact (proj1 (wait_without_CloseNotifier string sample_Parse sample_Generate
                  sample_atof64 env_unresolved w r sampler.idle sampler.idle
                  eq_refl eq_refl eq_refl)).
Defined.

Lemma Symbol_status_200_witness :
  let w := newResponseWriter true in
  let r := POST (mkSource "12345+67" (errorString "unexpected EOF") false) in
  wroteHeader w = false
  /\ exists w' log out,
       Symbol sample_functab w r = Some (w', log)
       /\ status w' = StatusOK
       /\ Header_Get (sentHeader w') "Content-Type" = "text/plain; charset=utf-8"
       /\ written w' = (written w ++ [out])%list.
Proof.
  intros w r. split; [reflexivity|].
  exact (Symbol_status_200 sample_functab w r eq_refl).
Defined.

Lemma ServeHTTP_unknown_profile_witness :
  let w := newResponseWriter true in
  let r := request [("gc", "1")] in
  wroteHeader w = false
  /\ sample_Lookup "100%" = None
  /\ exists w',
       ServeHTTP sample_Lookup sample_WriteTo "100%" w r = (w', [])
       /\ status w' = StatusNotFound
       /\ Header_Get (sentHeader w') "Content-Type" = "text/plain; charset=utf-8"
       /\ written w' = (written w ++ [("Unknown profile: 100%" ++ LF)%string])%list.
Proof.
  intros w r. split; [reflexivity|]. split; [reflexivity|].
  exact (ServeHTTP_unknown_profile string sample_Lookup sample_WriteTo "100%" w r
           eq_refl eq_refl).
Defined.



Lemma Index_unknown_path_witness :
  let w := newResponseWriter true in
  let r := request [] in
  wroteHeader w = false
  /\ "/profile/" <> "/"
  /\ sample_Lookup (TrimPrefix "/profile/" "/") = None
  /\ exists w',
       Index sample_Lookup [] sample_WriteTo sample_template_Parse
         sample_template_Execute "{{" w "/profile/" r = Returned (w', [])
       /\ status w' = StatusNotFound
       /\ written w'
          = (written w
             ++ [("Unknown profile: " ++ TrimPrefix "/profile/" "/" ++ LF)%string])%list.
Proof.
  intros w r.
  assert (H : "/profile/" <> "/") by discriminate.
  split; [reflexivity|]. split; [exact H|]. split; [reflexivity|].
  exact (Index_unknown_path string sample_Lookup [] sample_WriteTo string
           sample_template_Parse sample_template_Execute "{{" "/profile/" w r
           eq_refl H eq_refl).
Defined.

Lemma Index_broken_template_witness :
  let w := newResponseWriter true in
  let r := request [] in
  let e := errorString "template: index:1: unclosed action" in
  sample_template_Parse "{{" = inr e
  /\ Index sample_Lookup [] sample_WriteTo sample_template_Parse
       sample_template_Execute "{{" w "/" r = Panicked e.
Proof.
  intros w r e. split; [reflexivity|].
  exact (proj1 (Index_broken_template string sample_Lookup [] sample_WriteTo string
                  sample_template_Parse sample_template_Execute "{{" w r e eq_refl)).
Defined.

Lemma New_last_address_wins_witness :
  let options := [WithKeyPair "tls.crt" "tls.key"; WithAddr "127.0.0.1:6061"] in
  let st := apply_options options (New_start "index" [sample_server]) in
  (exists p1 h1 s,
     st = Some (p1, h1) /\ server p1 = Some 1%nat /\ nth_error h1 1 = Some s)
  /\ exists p h',
       New "index" (options ++ [WithAddr "0.0.0.0:80"]) [sample_server]
       = Some (p, h')
       /\ nth_error h' 1 = Some (mkServer "0.0.0.0:80" (Some (handler_of p))).
Proof.
  intros options st.
  assert (H : exists p1 h1 s,
     st = Some (p1, h1) /\ server p1 = Some 1%nat /\ nth_error h1 1 = Some s)
    by (do 3 eexists; repeat split).
  split; [exact H|]. destruct H as (p1 & h1 & s & H1 & H2 & H3).
  destruct (New_last_address_wins "index" "0.0.0.0:80" options [sample_server]
              h1 p1 1 s H1 H2 H3) as (h' & E & N & _).
  exists p1, h'. split; [exact E | exact N].
Defined.

Lemma New_custom_server_witness :
  let options := [WithHTMLTemplate "custom"] in
  let st := apply_options options (New_start "index" [sample_server]) in
  (exists p1 h1, st = Some (p1, h1) /\ nth_error h1 0 = Some sample_server)
  /\ exists p' h',
       New "index" (options ++ [WithServer (Some 0%nat)]) [sample_server]
       = Some (p', h')
       /\ server p' = Some 0%nat
       /\ nth_error h' 0 = Some (mkServer ":9090" (Some (mux_Handler muxer))).
Proof.
  intros options st.
  assert (H : exists p1 h1, st = Some (p1, h1) /\ nth_error h1 0 = Some sample_server)
    by (do 2 eexists; repeat split).
  split; [exact H|]. destruct H as (p1 & h1 & H1 & H2).
  destruct (New_custom_server "index" options [sample_server] h1 p1 0
              sample_server H1 H2) as (p' & h' & E & S & N & _).
  exists p', h'. split; [exact E|]. split; [exact S|].
  rewrite N. injection H1 as <- _. reflexivity.
Defined.

Lemma Run_TLS_needs_both_files_witness :
  let st := apply_options [] (New_start "index" []) in
  (exists p1 h1 s,
     st = Some (p1, h1) /\ server p1 = Some 0%nat /\ nth_error h1 0 = Some s)
  /\ exists p' h',
       New "index" ([] ++ [WithKeyPair "tls.crt" ""]) [] = Some (p', h')
       /\ fst (Run p' (fun _ => errorString "address already in use"))
          = Some (ListenAndServe 0).
Proof.
  intros st.
  assert (H : exists p1 h1 s,
     st = Some (p1, h1) /\ server p1 = Some 0%nat /\ nth_error h1 0 = Some s)
    by (do 3 eexists; repeat split).
  split; [exact H|]. destruct H as (p1 & h1 & s & H1 & H2 & H3).
  exact (Run_TLS_needs_both_files "index" "tls.crt" "" [] [] h1 p1 0 s
           (fun _ => errorString "address already in use") H1 H2 H3).
Defined.

Lemma Run_nil_error_handler_witness :
  let st := apply_options [] (New_start "index" []) in
  (exists p1 h1 s,
     st = Some (p1, h1) /\ server p1 = Some 0%nat /\ nth_error h1 0 = Some s)
  /\ exists p' h' call,
       New "index" ([] ++ [WithErrorHandler None]) [] = Some (p', h')
       /\ Run p' (fun _ => errorString "address already in use")
          = (Some call, Some nil_dereference).
Proof.
  intros st.
  assert (H : exists p1 h1 s,
     st = Some (p1, h1) /\ server p1 = Some 0%nat /\ nth_error h1 0 = Some s)
    by (do 3 eexists; repeat split).
  split; [exact H|]. destruct H as (p1 & h1 & s & H1 & H2 & H3).
  exact (Run_nil_error_handler "index" [] [] h1 p1 0 s
           (fun _ => errorString "address already in use") H1 H2 H3).
Defined.

Lemma profile_handlers_return_witness :
  let w := newResponseWriter true in
  let r := request [("seconds", "5")] in
  let sched := [true; false; true; true; false; true] in
  (4 <= count_occ Bool.bool_dec sched true)%nat
  /\ returned (thread_of true
       (run_schedule env_resolved env_unresolved sched
          (race_init string sample_Parse sample_Generate w w r r))) = true.
Proof.
  intros w r sched.
  assert (H : (4 <= count_occ Bool.bool_dec sched true)%nat) by (cbv; lia).
  split; [exact H|].
  exact (profile_handlers_return string sample_Parse sample_Generate
           env_resolved env_unresolved w w r r sched true H).
Defined.
